(** * Bookkeeping: the aggregation, store and form logic, embedded and verified

    The development follows the TypeScript sources file by file:
    [Types] (types.ts), [Store] (services/store.ts, offline branch),
    [AddTransactionModal], [Gemini] (the text parser), [AuthScreen],
    [App] (the dashboard statistics) and [UserProfileModal] (the report).

    Conventions of the embedding.
    - A JavaScript [number] is the rational it denotes ([Q]); sums are compared
      with [==].  NaN, the infinities and the rounding of IEEE doubles are
      outside the model; a builtin that may produce NaN returns an [option].
    - A JavaScript string is a [string] of code units below 256.
    - [firebase.ts] ships with the placeholder API key, so
      [isFirebaseConfigured] is [false] and every store operation takes its
      offline branch; that branch is what is modelled. *)

From Stdlib Require Import ZArith QArith Qminmax String Ascii List Bool Lia Lqa Permutation Sorted.
From stdpp Require Import gmap strings.

Import ListNotations.
Local Open Scope string_scope.
Local Open Scope Z_scope.

(** ** JavaScript builtins used by the sources *)

Module JS.

(** WhiteSpace and LineTerminator code units below 256: TAB, LF, VT, FF, CR,
    SP and NBSP. *)
Definition isWhiteSpace (c : ascii) : bool :=
  match nat_of_ascii c with
  | 9%nat | 10%nat | 11%nat | 12%nat | 13%nat | 32%nat | 160%nat => true
  | _ => false
  end.

Fixpoint trimStart (s : string) : string :=
  match s with
  | EmptyString => EmptyString
  | String c r => if isWhiteSpace c then trimStart r else s
  end.

Fixpoint trimEnd (s : string) : string :=
  match s with
  | EmptyString => EmptyString
  | String c r =>
      match trimEnd r with
      | EmptyString => if isWhiteSpace c then EmptyString else String c EmptyString
      | r' => String c r'
      end
  end.

(** [String.prototype.trim] *)
Definition trim (s : string) : string := trimEnd (trimStart s).

(** Truthiness of a string: only the empty string is falsy. *)
Definition truthy (s : string) : bool := negb (String.eqb s "").

Definition digitValue (radix : Z) (c : ascii) : option Z :=
  let n := Z.of_nat (nat_of_ascii c) in
  let v := if (48 <=? n) && (n <=? 57) then n - 48
           else if (97 <=? n) && (n <=? 122) then n - 87
           else if (65 <=? n) && (n <=? 90) then n - 55
           else 99 in
  if v <? radix then Some v else None.

(** The longest prefix of digits of the radix: the number of digits read,
    their value (continuing from [acc]) and the rest of the text. *)
Fixpoint readDigits (radix : Z) (s : string) (count : nat) (acc : Z) : nat * Z * string :=
  match s with
  | EmptyString => (count, acc, s)
  | String c r =>
      match digitValue radix c with
      | Some v => readDigits radix r (S count) (acc * radix + v)
      | None => (count, acc, s)
      end
  end.

(** A leading sign: [-1] or [1], and the text after it. *)
Definition readSign (s : string) : Z * string :=
  match s with
  | String c r =>
      if Ascii.eqb c "-" then (-1, r)
      else if Ascii.eqb c "+" then (1, r)
      else (1, s)
  | EmptyString => (1, s)
  end.

(** [parseInt(string)] with no radix argument; [None] is NaN. *)
Definition parseInt (input : string) : option Z :=
  let '(sign, s) := readSign (trimStart input) in
  let '(radix, s) :=
    match s with
    | String "0" (String "x" r) => (16, r)
    | String "0" (String "X" r) => (16, r)
    | _ => (10, s)
    end in
  match readDigits radix s 0 0 with
  | (O, _, _) => None
  | (_, n, _) => Some (sign * n)
  end.

(** The value [m * 10^e] of a decimal literal. *)
Definition scale10 (m e : Z) : Q :=
  if 0 <=? e then inject_Z (m * 10 ^ e) else Qmake m (Z.to_pos (10 ^ (- e))).

(** ExponentPart of a StrDecimalLiteral: [e] or [E], an optional sign and at
    least one digit; anything else is not part of the literal. *)
Definition readExponent (s : string) : Z :=
  match s with
  | String c r =>
      if (Ascii.eqb c "e" || Ascii.eqb c "E")%bool then
        let '(sign, r) := readSign r in
        match readDigits 10 r 0 0 with
        | (O, _, _) => 0
        | (_, n, _) => sign * n
        end
      else 0
  | EmptyString => 0
  end.

(** [parseFloat(string)]: the longest prefix of the trimmed text that is a
    StrDecimalLiteral.  [None] stands for the results that are no finite
    number: NaN (no such prefix) and [Infinity]. *)
Definition parseFloat (input : string) : option Q :=
  let '(sign, s) := readSign (trimStart input) in
  let '(ni, int, s) := readDigits 10 s 0 0 in
  let '(nf, mant, s) :=
    match s with
    | String c r => if Ascii.eqb c "." then readDigits 10 r 0 int else (O, int, s)
    | EmptyString => (O, int, s)
    end in
  match ni, nf with
  | O, O => None
  | _, _ => Some (scale10 (sign * mant) (readExponent s - Z.of_nat nf))
  end.

End JS.

(** ** types.ts *)

Module Types.

Inductive TransactionType := INCOME | EXPENSE.

Definition TransactionType_eqb (a b : TransactionType) : bool :=
  match a, b with
  | INCOME, INCOME | EXPENSE, EXPENSE => true
  | _, _ => false
  end.

Record Transaction := {
  id : string;
  date : string;
  description : string;
  amount : Q;
  type : TransactionType
}.

Record WeeklyBucket := { day : string; bucket_amount : Q }.

Record FinancialSummary := {
  totalBalance : Q;
  totalIncome : Q;
  totalExpense : Q;
  weeklySpending : list WeeklyBucket
}.

Record ParsedTransaction := {
  parsed_description : string;
  parsed_amount : Q;
  parsed_type : TransactionType;
  parsed_date : option string
}.

Inductive ReportFrequency := weekly | monthly.

Record UserProfile := {
  user_id : option string;
  displayId : string;
  name : string;
  avatar : option string;
  password : string;
  age : Z;
  guardianEmail : option string;
  guardianPhone : option string;
  reportFrequency : option ReportFrequency;
  currency : option string
}.

End Types.

Import Types.

(** ** services/store.ts, offline branch *)

Module Store.

(** The two [localStorage] keys the application uses.  A key that was never
    written (or was removed) reads as [null]: [None].  The stored text is
    the JSON of the value; [JSON.parse (JSON.stringify v)] gives [v] back
    for these records of strings and finite numbers, so the value itself is
    kept. *)
Record LocalStorage := {
  pocketbook_user : option UserProfile;
  pocketbook_data : option (list Transaction)
}.

(** [saved ? JSON.parse(saved) : []] *)
Definition savedTransactions (st : LocalStorage) : list Transaction :=
  match pocketbook_data st with
  | Some txs => txs
  | None => []
  end.

Definition setData (txs : list Transaction) (st : LocalStorage) : LocalStorage :=
  {| pocketbook_user := pocketbook_user st; pocketbook_data := Some txs |}.

Definition setUser (u : option UserProfile) (st : LocalStorage) : LocalStorage :=
  {| pocketbook_user := u; pocketbook_data := pocketbook_data st |}.

(** [x === emailOrName] for an optional string field: [undefined] equals no
    string. *)
Definition optionalIs (field : option string) (s : string) : bool :=
  match field with
  | Some v => String.eqb v s
  | None => false
  end.

(** The result of an [async] function: the value it resolves to, or the
    message of the [Error] it throws. *)
Inductive Outcome (A : Type) :=
| Resolved (a : A)
| Thrown (message : string).
Arguments Resolved {A} a.
Arguments Thrown {A} message.

Definition loginUser (emailOrName password : string) (st : LocalStorage)
  : Outcome UserProfile :=
  match pocketbook_user st with
  | Some user =>
      if (String.eqb (name user) emailOrName
          || optionalIs (guardianEmail user) emailOrName)%bool
      then Resolved user
      else Thrown "Offline user not found or password mismatch."
  | None => Thrown "Offline user not found or password mismatch."
  end.

Definition registerUser (profile : UserProfile) (st : LocalStorage)
  : UserProfile * LocalStorage :=
  (profile, setUser (Some profile) st).

Definition logoutUser (st : LocalStorage) : LocalStorage := setUser None st.

Definition updateUserProfile (profile : UserProfile) (st : LocalStorage)
  : LocalStorage :=
  setUser (Some profile) st.

(** The single snapshot [subscribeToTransactions] hands to its callback. *)
Definition subscribeToTransactions (st : LocalStorage) : list Transaction :=
  savedTransactions st.

(** [Omit<Transaction, 'id'>] *)
Record EntryData := {
  entry_description : string;
  entry_amount : Q;
  entry_type : TransactionType;
  entry_date : string
}.

(** [{ id: uuidv4(), ...data }]; the fresh identifier is an input. *)
Definition newItem (uuid : string) (data : EntryData) : Transaction :=
  {| id := uuid;
     date := entry_date data;
     description := entry_description data;
     amount := entry_amount data;
     type := entry_type data |}.

Definition addTransaction (uuid : string) (data : EntryData) (st : LocalStorage)
  : Transaction * LocalStorage :=
  let current := savedTransactions st in
  (newItem uuid data, setData (newItem uuid data :: current) st).

(** [Partial<Transaction>]: [None] is a property that is not there. *)
Record PartialTransaction := {
  p_id : option string;
  p_date : option string;
  p_description : option string;
  p_amount : option Q;
  p_type : option TransactionType
}.

Definition orElse {A} (o : option A) (d : A) : A :=
  match o with Some a => a | None => d end.

(** [{ ...t, ...data }] *)
Definition spread (t : Transaction) (data : PartialTransaction) : Transaction :=
  {| id := orElse (p_id data) (id t);
     date := orElse (p_date data) (date t);
     description := orElse (p_description data) (description t);
     amount := orElse (p_amount data) (amount t);
     type := orElse (p_type data) (type t) |}.

Definition updateTransaction (i : string) (data : PartialTransaction)
    (st : LocalStorage) : LocalStorage :=
  let current := savedTransactions st in
  setData (map (fun t => if String.eqb (id t) i then spread t data else t) current) st.

Definition deleteTransaction (i : string) (st : LocalStorage) : LocalStorage :=
  let current := savedTransactions st in
  let filtered := List.filter (fun t => negb (String.eqb (id t) i)) current in
  setData filtered st.

(** Offline [subscribeToAuth]: the callback is called once, with the stored
    profile or with [null]. *)
Definition subscribeToAuth (st : LocalStorage) : option UserProfile :=
  pocketbook_user st.

End Store.

(** ** components/AddTransactionModal.tsx *)

Module AddTransactionModal.

(** The form's state: the texts of the inputs, the chosen kind. *)
Record Form := {
  description : string;
  amount : string;
  type : TransactionType;
  date : string
}.

(** What [handleManualSubmit] does with the form. *)
Inductive Submission :=
| Ignored                         (* the early [return]: nothing is saved *)
| Saved (data : Store.EntryData)  (* [onSave] called with this entry *)
| SavedNaN.                       (* [onSave] called with an amount that is
                                     no finite number *)

Definition handleManualSubmit (f : Form) : Submission :=
  if (negb (JS.truthy (description f)) || negb (JS.truthy (amount f)))%bool
  then Ignored
  else match JS.parseFloat (amount f) with
       | Some a =>
           Saved {| Store.entry_description := description f;
                    Store.entry_amount := a;
                    Store.entry_type := type f;
                    Store.entry_date := date f |}
       | None => SavedNaN
       end.

End AddTransactionModal.

(** ** The text parser (Gemini service) *)

Module Gemini.

(** The object [JSON.parse(response.text || "{}")] as the parser reads it.
    The request pins the reply to [responseSchema]: [description] and
    [type] are strings, [amount] a number, [date] a string or null; a
    property that is missing reads as [undefined]: [None]. *)
Record Reply := {
  description : option string;
  amount : option Q;
  type : option string;
  date : option string
}.

(** The part of [parseTransactionFromText] after the reply was parsed. *)
Definition parseTransactionFromText (json : Reply) : option ParsedTransaction :=
  match description json, amount json with
  | Some d, Some a =>
      if JS.truthy d then
        Some {| parsed_description := d;
                parsed_amount := a;
                parsed_type := if Store.optionalIs (type json) "income"
                               then INCOME else EXPENSE;
                parsed_date := match date json with
                               | Some s => if JS.truthy s then Some s else None
                               | None => None
                               end |}
      else None
  | _, _ => None
  end.

End Gemini.

(** ** App.tsx: handlers and the dashboard statistics *)

Module App.

(** The part of the component's state the handlers below touch, together
    with the browser's storage. *)
Record State := {
  transactions : list Transaction;
  editingTransaction : option Transaction;
  selectedId : option string;
  deleteId : option string;
  storage : Store.LocalStorage
}.

Definition asPartial (data : Store.EntryData) : Store.PartialTransaction :=
  {| Store.p_id := None;
     Store.p_date := Some (Store.entry_date data);
     Store.p_description := Some (Store.entry_description data);
     Store.p_amount := Some (Store.entry_amount data);
     Store.p_type := Some (Store.entry_type data) |}.

(** [handleSaveTransaction]; [uuid] is what [uuidv4()] returns if called. *)
Definition handleSaveTransaction (uuid : string) (data : Store.EntryData)
    (s : State) : State :=
  match editingTransaction s with
  | Some e =>
      {| transactions :=
           map (fun t => if String.eqb (id t) (id e)
                         then Store.spread t (asPartial data) else t)
               (transactions s);
         editingTransaction := None;
         selectedId := None;
         deleteId := deleteId s;
         storage := Store.updateTransaction (id e) (asPartial data) (storage s) |}
  | None =>
      let '(item, st) := Store.addTransaction uuid data (storage s) in
      {| transactions := item :: transactions s;
         editingTransaction := editingTransaction s;
         selectedId := selectedId s;
         deleteId := deleteId s;
         storage := st |}
  end.

Definition confirmDelete (s : State) : State :=
  match deleteId s with
  | None => s
  | Some i =>
      if JS.truthy i then
        {| transactions :=
             List.filter (fun t => negb (String.eqb (id t) i)) (transactions s);
           editingTransaction := editingTransaction s;
           selectedId := None;
           deleteId := None;
           storage := Store.deleteTransaction i (storage s) |}
      else s
  end.

(** *** Dates

    A [Date] is its time value: milliseconds since the epoch, UTC. *)

Definition msPerDay : Z := 86400000.

(** [d.setDate(d.getDate() - i)] moves the local calendar date back [i]
    days and keeps the local time of day; in a time zone whose UTC offset
    does not change over the week this is the instant [i] days earlier. *)
Definition daysEarlier (t : Z) (i : Z) : Z := t - i * msPerDay.

(** Year, month and day (UTC) of the day number [t / msPerDay]. *)
Definition civil (dayNumber : Z) : Z * Z * Z :=
  let z := dayNumber + 719468 in
  let era := z / 146097 in
  let doe := z - era * 146097 in
  let yoe := (doe - doe / 1460 + doe / 36524 - doe / 146096) / 365 in
  let doy := doe - (365 * yoe + yoe / 4 - yoe / 100) in
  let mp := (5 * doy + 2) / 153 in
  let d := doy - (153 * mp + 2) / 5 + 1 in
  let m := if mp <? 10 then mp + 3 else mp - 9 in
  (yoe + era * 400 + (if m <=? 2 then 1 else 0), m, d).

(** The last [width] decimal digits of [n]. *)
Fixpoint digits (width : nat) (n : Z) : string :=
  match width with
  | O => EmptyString
  | S w => digits w (n / 10) ++ String (ascii_of_nat (Z.to_nat (48 + n mod 10))) EmptyString
  end.

(** [d.toISOString().split('T')[0]]: four digits for the years 0 to 9999,
    a sign and six digits for the others. *)
Definition isoDay (dayNumber : Z) : string :=
  let '(y, m, d) := civil dayNumber in
  let year := if (0 <=? y) && (y <=? 9999) then digits 4 y
              else (if y <? 0 then "-" else "+") ++ digits 6 (Z.abs y) in
  year ++ "-" ++ digits 2 m ++ "-" ++ digits 2 d.

Definition toISODate (t : Z) : string := isoDay (t / msPerDay).

(** [.reduce((acc, t) => acc + t.amount, 0)] *)
Definition sum (l : list Transaction) : Q :=
  fold_left (fun acc t => (acc + Types.amount t)%Q) l 0%Q.

Definition isType (k : TransactionType) (t : Transaction) : bool :=
  TransactionType_eqb (Types.type t) k.

Section Stats.

(** [new Date(date).toLocaleDateString('en-US', { weekday: 'short' })]:
    the label depends on the locale data and time zone of the browser
    and is left open. *)
Variable weekdayShort : string -> string.

(** [now] is the time value of the [new Date()] calls of one render. *)
Definition last7Days (now : Z) : list string :=
  rev (map (fun i => toISODate (daysEarlier now (Z.of_nat i))) (seq 0 7)).

Definition stats (now : Z) (transactions : list Transaction) : FinancialSummary :=
  let totalIncome := sum (List.filter (isType INCOME) transactions) in
  let totalExpense := sum (List.filter (isType EXPENSE) transactions) in
  let weeklySpending :=
    map (fun date =>
           let dayAmount :=
             sum (List.filter
                    (fun t => (String.eqb (Types.date t) date && isType EXPENSE t)%bool)
                    transactions) in
           {| day := weekdayShort date; bucket_amount := dayAmount |})
        (last7Days now) in
  {| totalBalance := (totalIncome - totalExpense)%Q;
     totalIncome := totalIncome;
     totalExpense := totalExpense;
     weeklySpending := weeklySpending |}.

End Stats.

(** *** The whole screen

    The component's state with the session and the entry modal's flag. *)
Record Screen := {
  state : State;
  user : option UserProfile;
  isModalOpen : bool
}.

Definition withState (f : State -> State) (sc : Screen) : Screen :=
  {| state := f (state sc); user := user sc; isModalOpen := isModalOpen sc |}.

(** The effect on [[user]]: with a user the single offline snapshot replaces
    the list, without one the list is emptied. *)
Definition userChanged (u : option UserProfile) (s : State) : State :=
  {| transactions := match u with
                     | Some _ => Store.subscribeToTransactions (storage s)
                     | None => []
                     end;
     editingTransaction := editingTransaction s;
     selectedId := selectedId s;
     deleteId := deleteId s;
     storage := storage s |}.

Definition withStorage (st : Store.LocalStorage) (s : State) : State :=
  {| transactions := transactions s;
     editingTransaction := editingTransaction s;
     selectedId := selectedId s;
     deleteId := deleteId s;
     storage := st |}.

(** [handleLogin], offline; the effect on [[user]] follows. *)
Definition handleLogin (userProfile : UserProfile) (sc : Screen) : Screen :=
  let st := snd (Store.registerUser userProfile (storage (state sc))) in
  {| state := userChanged (Some userProfile) (withStorage st (state sc));
     user := Some userProfile;
     isModalOpen := isModalOpen sc |}.

Definition handleLogout (sc : Screen) : Screen :=
  let st := Store.logoutUser (storage (state sc)) in
  {| state := userChanged None (withStorage st (state sc));
     user := None;
     isModalOpen := isModalOpen sc |}.

Definition handleUpdateUser (updatedProfile : UserProfile) (sc : Screen) : Screen :=
  let st := Store.updateUserProfile updatedProfile (storage (state sc)) in
  {| state := userChanged (Some updatedProfile) (withStorage st (state sc));
     user := Some updatedProfile;
     isModalOpen := isModalOpen sc |}.

Definition select (sel : option string) (s : State) : State :=
  {| transactions := transactions s;
     editingTransaction := editingTransaction s;
     selectedId := sel;
     deleteId := deleteId s;
     storage := storage s |}.

(** The click on the row of [t]:
    [setSelectedId(selectedId === t.id ? null : t.id)]. *)
Definition rowClick (t : Transaction) (s : State) : State :=
  select (if Store.optionalIs (selectedId s) (id t) then None else Some (id t)) s.

(** [handleBackgroundClick]; [onRowOrButton] tells whether the click landed
    inside a table row or a button. *)
Definition handleBackgroundClick (onRowOrButton : bool) (s : State) : State :=
  if onRowOrButton then s else select None s.

Definition handleDeleteClick (i : string) (s : State) : State :=
  {| transactions := transactions s;
     editingTransaction := editingTransaction s;
     selectedId := selectedId s;
     deleteId := Some i;
     storage := storage s |}.

(** The Cancel button of the confirmation: [setDeleteId(null)]. *)
Definition cancelDelete (s : State) : State :=
  {| transactions := transactions s;
     editingTransaction := editingTransaction s;
     selectedId := selectedId s;
     deleteId := None;
     storage := storage s |}.

Definition edit (e : option Transaction) (open : bool) (sc : Screen) : Screen :=
  {| state := {| transactions := transactions (state sc);
                 editingTransaction := e;
                 selectedId := selectedId (state sc);
                 deleteId := deleteId (state sc);
                 storage := storage (state sc) |};
     user := user sc;
     isModalOpen := open |}.

Definition handleEditClick (transaction : Transaction) (sc : Screen) : Screen :=
  edit (Some transaction) true sc.

(** The buttons shown while [selectedId] is truthy. *)
Definition selected (s : State) : option string :=
  match selectedId s with
  | Some i => if JS.truthy i then Some i else None
  | None => None
  end.

(** The Edit button: [transactions.find(tr => tr.id === selectedId)], and
    [handleEditClick] on what was found. *)
Definition editClick (sc : Screen) : Screen :=
  match selected (state sc) with
  | Some i =>
      match find (fun tr => String.eqb (id tr) i) (transactions (state sc)) with
      | Some t => handleEditClick t sc
      | None => sc
      end
  | None => sc
  end.

(** The Delete button. *)
Definition deleteClick (s : State) : State :=
  match selected s with
  | Some i => handleDeleteClick i s
  | None => s
  end.

(** The New Entry button. *)
Definition newEntryClick (sc : Screen) : Screen := edit None true sc.

(** The modal's [onClose]. *)
Definition closeModal (sc : Screen) : Screen := edit None false sc.

End App.

(** ** components/UserProfileModal.tsx: the report data *)

Module UserProfileModal.

(** A value held by a property of [byItem] or by an entry of the list: a
    number, or a string.  Strings arise only from [+] applied to an object
    inherited from [Object.prototype]; their text plays no role below and
    is not kept. *)
Inductive Value :=
| VNum (q : Q)
| VText.

(** The own properties of the object literal [{}] the reduction starts
    from, in insertion order.  The object's prototype is
    [Object.prototype]. *)
Definition Obj := list (string * Value).

(** The property names of [Object.prototype] (ECMA-262, "Properties of the
    Object Prototype Object", with the legacy [__proto__] accessor and
    [__define/lookupGetter/Setter__] methods). *)
Definition objectPrototypeKeys : list string :=
  [ "constructor"; "hasOwnProperty"; "isPrototypeOf"; "propertyIsEnumerable";
    "toLocaleString"; "toString"; "valueOf"; "__proto__";
    "__defineGetter__"; "__defineSetter__"; "__lookupGetter__";
    "__lookupSetter__" ].

Definition inObjectPrototype (key : string) : bool :=
  existsb (String.eqb key) objectPrototypeKeys.

Fixpoint own (acc : Obj) (key : string) : option Value :=
  match acc with
  | [] => None
  | (k, v) :: rest => if String.eqb k key then Some v else own rest key
  end.

(** What [acc[key]] evaluates to. *)
Inductive Read :=
| Own (v : Value)      (* an own property *)
| Inherited            (* a function or object found on [Object.prototype] *)
| Undefined.

Definition get (acc : Obj) (key : string) : Read :=
  match own acc key with
  | Some v => Own v
  | None => if inObjectPrototype key then Inherited else Undefined
  end.

Fixpoint put (acc : Obj) (key : string) (v : Value) : Obj :=
  match acc with
  | [] => [(key, v)]
  | (k, w) :: rest =>
      if String.eqb k key then (k, v) :: rest else (k, w) :: put rest key v
  end.

(** [acc[key] = v] for a primitive [v].  The name [__proto__] reaches the
    accessor of [Object.prototype], whose setter ignores a value that is
    neither an object nor null; every other name becomes (or stays) an own
    property. *)
Definition set (acc : Obj) (key : string) (v : Value) : Obj :=
  if String.eqb key "__proto__" then acc else put acc key v.

(** [a + b] where [b] is a number. *)
Definition plus (a : Value) (b : Q) : Value :=
  match a with
  | VNum q => VNum (q + b)
  | VText => VText
  end.

(** [(acc[key] || 0) + amount]: zero is falsy, a non-empty string, a
    function and an object are truthy; [+] concatenates as soon as one side
    is not a number. *)
Definition bump (r : Read) (amount : Q) : Value :=
  match r with
  | Own (VNum q) => if Qeq_bool q 0 then VNum (0 + amount) else VNum (q + amount)
  | Own VText => VText
  | Inherited => VText
  | Undefined => VNum (0 + amount)
  end.

Definition byItem (expenses : list Transaction) : Obj :=
  fold_left (fun acc t =>
               let key := JS.trim (description t) in
               set acc key (bump (get acc key) (amount t)))
            expenses [].

(** A canonical numeric string below 2^32 - 1 is an array index. *)
Definition arrayIndex (key : string) : option Z :=
  match key with
  | EmptyString => None
  | String c r =>
      match JS.readDigits 10 key 0 0 with
      | (_, n, EmptyString) =>
          if ((negb (Ascii.eqb c "0") || String.eqb r "") && (n <? 4294967295))%bool
          then Some n else None
      | _ => None
      end
  end.

Section Sort.
Context {A : Type}.

(** [after x y]: the comparator's result for [(x, y)] is positive, so
    [y] has to come first. *)
Variable after : A -> A -> bool.

Fixpoint insert (x : A) (l : list A) : list A :=
  match l with
  | [] => [x]
  | y :: rest => if after x y then y :: insert x rest else x :: l
  end.

(** [Array.prototype.sort] is stable; insertion from the right is. *)
Definition sort (l : list A) : list A := fold_right insert [] l.
End Sort.

Definition indexOf (e : string * Value) : Z :=
  match arrayIndex (fst e) with Some n => n | None => 0 end.

(** [Object.entries]: the array indices in ascending order, then the other
    names in insertion order. *)
Definition entries (o : Obj) : list (string * Value) :=
  sort (fun x y => indexOf y <? indexOf x)
       (List.filter (fun e => match arrayIndex (fst e) with Some _ => true | None => false end) o)
  ++ List.filter (fun e => match arrayIndex (fst e) with Some _ => false | None => true end) o.

Record Item := { name : string; value : Value }.

(** [(a, b) => b.value - a.value] is positive: both values are numbers and
    [b]'s is the larger.  A string operand makes the difference NaN, which
    [sort] takes for zero (the order an engine produces is then its own;
    the model keeps the insertion sort's). *)
Definition byValueDesc (a b : Item) : bool :=
  match value a, value b with
  | VNum x, VNum y => match (y ?= x)%Q with Gt => true | _ => false end
  | _, _ => false
  end.

(** [s + i.value] in the reduction that totals the remainder. *)
Definition plusValue (s : Value) (v : Value) : Value :=
  match v with
  | VNum q => plus s q
  | VText => VText
  end.

Definition topExpenses (transactions : list Transaction) : list Item :=
  let expenses := List.filter (App.isType EXPENSE) transactions in
  let sorted :=
    sort byValueDesc
         (map (fun e => {| name := fst e; value := snd e |}) (entries (byItem expenses))) in
  if (5 <? length sorted)%nat then
    let top := firstn 5 sorted in
    let otherVal := fold_left (fun s i => plusValue s (value i)) (skipn 5 sorted) (VNum 0) in
    top ++ [ {| name := "Others"; value := otherVal |} ]
  else sorted.

Record Slice := { slice_name : string; slice_value : Q; color : string }.

(** [Math.max(0, x)] *)
Definition max0 (x : Q) : Q := if Qle_bool x 0 then 0%Q else x.

Definition data (transactions : list Transaction) : list Slice :=
  let totalIncome := App.sum (List.filter (App.isType INCOME) transactions) in
  let totalExpense := App.sum (List.filter (App.isType EXPENSE) transactions) in
  let remaining := max0 (totalIncome - totalExpense) in
  let spent := totalExpense in
  List.filter (fun item => match (slice_value item ?= 0)%Q with Gt => true | _ => false end)
    [ {| slice_name := "Spent"; slice_value := spent; color := "#ef4444" |};
      {| slice_name := "Remaining"; slice_value := remaining; color := "#10b981" |} ].

Record ReportData := {
  report_data : list Slice;
  report_totalExpense : Q;
  report_totalIncome : Q;
  report_topExpenses : list Item
}.

Definition reportData (transactions : list Transaction) : ReportData :=
  {| report_data := data transactions;
     report_totalExpense := App.sum (List.filter (App.isType EXPENSE) transactions);
     report_totalIncome := App.sum (List.filter (App.isType INCOME) transactions);
     report_topExpenses := topExpenses transactions |}.

End UserProfileModal.

(** ** components/AuthScreen.tsx *)

Module AuthScreen.

Record Form := {
  isLoginMode : bool;
  name : string;
  email : string;
  password : string;
  ageInput : string;
  guardianEmail : string;
  guardianPhone : string;
  reportFrequency : ReportFrequency
}.

(** [[^\s@]] *)
Definition plainChar (c : ascii) : bool :=
  negb (JS.isWhiteSpace c || Ascii.eqb c "@").

Fixpoint allPlain (s : string) : bool :=
  match s with
  | EmptyString => true
  | String c r => plainChar c && allPlain r
  end.

(** A dot of [s] that is followed by at least one more character. *)
Fixpoint dotBeforeEnd (s : string) : bool :=
  match s with
  | String "." (String _ _) => true
  | String _ r => dotBeforeEnd r
  | EmptyString => false
  end.

(** The text after a non-empty run of plain characters and the [@] that
    ends it. *)
Fixpoint afterAt (s : string) (seen : bool) : option string :=
  match s with
  | EmptyString => None
  | String c r =>
      if Ascii.eqb c "@" then (if seen then Some r else None)
      else if plainChar c then afterAt r true else None
  end.

(** [/^[^\s@]+@[^\s@]+\.[^\s@]+$/.test(s)] *)
Definition emailRegex_test (s : string) : bool :=
  match afterAt s false with
  | Some (String _ r as domain) => allPlain domain && dotBeforeEnd r
  | _ => false
  end.

(** What the handler does, in order. *)
Inductive Event :=
| setErrors (errors : gmap string string)
| call_loginUser (identifier password : string)
| call_registerUser (profile : UserProfile)
| onLogin (user : UserProfile).

Definition isUnderage (ageNum : option Z) : bool :=
  match ageNum with
  | Some n => n <=? 17
  | None => false
  end.

Definition validate (f : Form) : gmap string string :=
  let newErrors : gmap string string := ∅ in
  let newErrors :=
    if negb (JS.truthy (JS.trim (name f)))
    then <["name" := "Name is required"]> newErrors else newErrors in
  let newErrors :=
    if negb (JS.truthy (password f))
    then <["password" := "Password is required"]> newErrors
    else if (String.length (password f) <? 6)%nat
    then <["password" := "Password must be at least 6 characters long"]> newErrors
    else newErrors in
  let ageNum := JS.parseInt (ageInput f) in
  let newErrors :=
    if negb (JS.truthy (ageInput f))
    then <["age" := "Age is required"]> newErrors
    else match ageNum with
         | Some n =>
             if ((n <? 5) || (100 <? n))%bool
             then <["age" := "Please enter a valid age"]> newErrors else newErrors
         | None => <["age" := "Please enter a valid age"]> newErrors
         end in
  if isUnderage ageNum then
    let hasEmail := (0 <? String.length (JS.trim (guardianEmail f)))%nat in
    let hasPhone := (0 <? String.length (JS.trim (guardianPhone f)))%nat in
    let newErrors :=
      if (negb hasEmail && negb hasPhone)%bool
      then <["guardianSection" := "Please provide either an email or phone number."]> newErrors
      else newErrors in
    if (hasEmail && negb (emailRegex_test (guardianEmail f)))%bool
    then <["guardianEmail" := "Please enter a valid email."]> newErrors
    else newErrors
  else newErrors.

(** The profile built once validation has passed.  [ageNum] is a number
    there (a NaN has left an [age] error, see [validate_age_number]); the
    default is never used. *)
Definition userProfile (displayId : string) (f : Form) : UserProfile :=
  let ageNum := JS.parseInt (ageInput f) in
  let under := isUnderage ageNum in
  {| user_id := None;
     displayId := displayId;
     Types.name := name f;
     avatar := None;
     Types.password := password f;
     age := match ageNum with Some n => n | None => 0 end;
     Types.guardianEmail :=
       if (under && JS.truthy (guardianEmail f))%bool then Some (guardianEmail f) else None;
     Types.guardianPhone :=
       if (under && JS.truthy (guardianPhone f))%bool then Some (guardianPhone f) else None;
     Types.reportFrequency := if under then Some (reportFrequency f) else None;
     currency := None |}.

(** [handleSubmit]; [displayId] is the eight-digit identifier drawn from
    [Math.random()].  Offline, the identifier of a login is the name. *)
Definition handleSubmit (displayId : string) (f : Form) (st : Store.LocalStorage)
  : list Event * Store.LocalStorage :=
  if isLoginMode f then
    if negb (JS.truthy (password f))
    then ([setErrors ∅; setErrors {["password" := "Required"]}], st)
    else if negb (JS.truthy (name f))
    then ([setErrors ∅; setErrors {["name" := "Name required"]}], st)
    else
      match Store.loginUser (name f) (password f) st with
      | Store.Resolved user =>
          ([setErrors ∅; call_loginUser (name f) (password f); onLogin user], st)
      | Store.Thrown _ =>
          ([setErrors ∅; call_loginUser (name f) (password f);
            setErrors {["form" := "Invalid credentials. Please try again."]}], st)
      end
  else
    let newErrors := validate f in
    if (0 <? size newErrors)%nat
    then ([setErrors ∅; setErrors newErrors], st)
    else
      let '(profile, st') := Store.registerUser (userProfile displayId f) st in
      ([setErrors ∅; call_registerUser profile; onLogin profile], st').

(** The [errors] state after the handler ran. *)
Definition errorsAfter (trace : list Event) : gmap string string :=
  fold_left (fun e ev => match ev with setErrors e' => e' | _ => e end) trace ∅.

End AuthScreen.

(** ** The specification's vocabulary *)

Module Spec.

#[global] Instance TransactionType_eq_dec : EqDecision TransactionType.
Proof. solve_decision. Defined.

(** The sum of the amounts of the transactions that satisfy [P]. *)
Fixpoint sumOf (P : Transaction -> Prop) `{!forall t, Decision (P t)}
    (l : list Transaction) : Q :=
  match l with
  | [] => 0%Q
  | t :: rest => if decide (P t) then (amount t + sumOf P rest)%Q else sumOf P rest
  end.

Definition ofKind (k : TransactionType) (t : Transaction) : Prop := type t = k.

(** An expense whose stored date is exactly the text [d]. *)
Definition expenseOn (d : string) (t : Transaction) : Prop :=
  type t = EXPENSE /\ date t = d.

#[global] Instance ofKind_dec k t : Decision (ofKind k t).
Proof. unfold ofKind. apply _. Defined.

#[global] Instance expenseOn_dec d t : Decision (expenseOn d t).
Proof. unfold expenseOn. apply _. Defined.

#[global] Instance Qeq_decision (x y : Q) : Decision (x == y)%Q := Qeq_dec x y.

#[global] Instance Qle_decision (x y : Q) : Decision (x <= y)%Q :=
  match Qlt_le_dec y x with
  | left H => right (Qlt_not_le _ _ H)
  | right H => left H
  end.

(** The two slices of the spend-versus-income pie. *)
Definition slices (totalExpense totalIncome : Q) : list UserProfileModal.Slice :=
  [ {| UserProfileModal.slice_name := "Spent";
       UserProfileModal.slice_value := totalExpense;
       UserProfileModal.color := "#ef4444" |};
    {| UserProfileModal.slice_name := "Remaining";
       UserProfileModal.slice_value := Qmax 0 (totalIncome - totalExpense);
       UserProfileModal.color := "#10b981" |} ].

(** The slices left when those whose value satisfies [drop] are omitted. *)
Definition omitting (drop : Q -> Prop) `{!forall q, Decision (drop q)}
    (l : list UserProfileModal.Slice) : list UserProfileModal.Slice :=
  List.filter (fun s => negb (bool_decide (drop (UserProfileModal.slice_value s)))) l.

(** The number a value stands for in a total; a string counts for nothing
    and is tracked by [valuesTotal]. *)
Definition num (v : UserProfileModal.Value) : Q :=
  match v with
  | UserProfileModal.VNum q => q
  | UserProfileModal.VText => 0%Q
  end.

Definition isNum (v : UserProfileModal.Value) : Prop :=
  match v with
  | UserProfileModal.VNum _ => True
  | UserProfileModal.VText => False
  end.

Fixpoint numSum (l : list UserProfileModal.Value) : Q :=
  match l with
  | [] => 0%Q
  | v :: rest => (num v + numSum rest)%Q
  end.

(** The sum of the values of the entries of a list, when all of them are
    numbers. *)
Fixpoint valuesTotal (l : list UserProfileModal.Item) : option Q :=
  match l with
  | [] => Some 0%Q
  | i :: rest =>
      match UserProfileModal.value i, valuesTotal rest with
      | UserProfileModal.VNum q, Some s => Some (q + s)%Q
      | _, _ => None
      end
  end.

(** The text of an amount begins, after leading white space, with a minus
    sign. *)
Definition minusSign (s : string) : Prop :=
  exists r, JS.trimStart s = String "-" r.

(** No expense is described by the name of a property of
    [Object.prototype]. *)
Definition plainDescriptions (l : list Transaction) : Prop :=
  Forall (fun t => type t = EXPENSE ->
                   UserProfileModal.inObjectPrototype (JS.trim (description t)) = false) l.

(** The list the screen shows is the list the storage holds. *)
Definition mirrors (s : App.State) : Prop :=
  App.transactions s = Store.savedTransactions (App.storage s).


(** An expense whose trimmed description is [k]: a member of the group [k]
    of the breakdown. *)
Definition describedAs (k : string) (t : Transaction) : Prop :=
  type t = EXPENSE /\ JS.trim (description t) = k.

#[global] Instance describedAs_dec k t : Decision (describedAs k t).
Proof. unfold describedAs. apply _. Defined.

Definition groupTotal (k : string) (l : list Transaction) : Q :=
  sumOf (describedAs k) l.

(** [i] is listed before [j]: the value of [j] is not the larger one. *)
Definition noLess (i j : UserProfileModal.Item) : Prop :=
  (num (UserProfileModal.value j) <= num (UserProfileModal.value i))%Q.

(** The groups of the breakdown, sorted: the list [topExpenses] truncates. *)
Definition sortedGroups (transactions : list Transaction) : list UserProfileModal.Item :=
  UserProfileModal.sort UserProfileModal.byValueDesc
    (map (fun e => {| UserProfileModal.name := fst e; UserProfileModal.value := snd e |})
       (UserProfileModal.entries
          (UserProfileModal.byItem (List.filter (App.isType EXPENSE) transactions)))).

(** The state of the reduction after the expenses [done]: distinct names,
    and under each name of a group the total of the group. *)
Definition grouped (o : UserProfileModal.Obj) (done : list Transaction) : Prop :=
  List.NoDup (map fst o)
  /\ forall k,
      match UserProfileModal.own o k with
      | Some v => exists q, v = UserProfileModal.VNum q
                            /\ (q == sumOf (fun t => JS.trim (description t) = k) done)%Q
                            /\ Exists (fun t => JS.trim (description t) = k) done
      | None => Forall (fun t => JS.trim (description t) <> k) done
      end.


(** What the registration form must hold for validation to leave no error. *)
Definition acceptable (f : AuthScreen.Form) : Prop :=
  JS.trim (AuthScreen.name f) <> ""
  /\ (6 <= String.length (AuthScreen.password f))%nat
  /\ exists n,
       JS.parseInt (AuthScreen.ageInput f) = Some n
       /\ 5 <= n <= 100
       /\ (n <= 17 ->
           (JS.trim (AuthScreen.guardianEmail f) <> ""
            \/ JS.trim (AuthScreen.guardianPhone f) <> "")
           /\ (JS.trim (AuthScreen.guardianEmail f) <> "" ->
               AuthScreen.emailRegex_test (AuthScreen.guardianEmail f) = true)).

Definition nonNegative (l : list Transaction) : Prop :=
  Forall (fun t => (0 <= amount t)%Q) l.

End Spec.

(** ** Sample data *)

Module Sample.

Definition expense (i desc : string) (a : Q) : Transaction :=
  {| id := i; date := "2024-03-01"; description := desc; amount := a; type := EXPENSE |}.

Definition income (i desc : string) (a : Q) : Transaction :=
  {| id := i; date := "2024-03-01"; description := desc; amount := a; type := INCOME |}.

(** The scenario of the specification: two lunches and an allowance. *)
Definition lunches : list Transaction :=
  [ expense "t1" "Lunch" 50; expense "t2" "Lunch" 30; income "t3" "Allowance" 200 ].

(** A refund entered as an expense with a negative amount. *)
Definition refund : list Transaction := [ expense "t1" "Refund" (-5) ].

(** An expense whose description is a property name of [Object.prototype]. *)
Definition proto : list Transaction := [ expense "t1" "__proto__" 50 ].

Definition toString : list Transaction := [ expense "t1" "toString" 50 ].

(** A browser whose storage holds the scenario's three transactions and
    the profile of a sixteen-year-old. *)
Definition ann : UserProfile :=
  {| user_id := None; displayId := "12345678"; name := "Ann"; avatar := None;
     password := "secret1"; age := 16; guardianEmail := Some "mum@example.org";
     guardianPhone := None; reportFrequency := Some weekly; currency := None |}.

Definition browser : Store.LocalStorage :=
  {| Store.pocketbook_user := Some ann; Store.pocketbook_data := Some lunches |}.

(** A fresh browser: nothing was ever written. *)
Definition fresh : Store.LocalStorage :=
  {| Store.pocketbook_user := None; Store.pocketbook_data := None |}.

(** The registration form of a sixteen-year-old. *)
Definition teen (guardianEmail guardianPhone : string) : AuthScreen.Form :=
  {| AuthScreen.isLoginMode := false; AuthScreen.name := "Ann";
     AuthScreen.email := ""; AuthScreen.password := "secret1";
     AuthScreen.ageInput := "16"; AuthScreen.guardianEmail := guardianEmail;
     AuthScreen.guardianPhone := guardianPhone;
     AuthScreen.reportFrequency := weekly |}.

(** The entry form filled in with a negative amount. *)
Definition refundForm : AddTransactionModal.Form :=
  {| AddTransactionModal.description := "Refund";
     AddTransactionModal.amount := "-5";
     AddTransactionModal.type := EXPENSE;
     AddTransactionModal.date := "2024-03-01" |}.

Definition lunchForm : AddTransactionModal.Form :=
  {| AddTransactionModal.description := "Lunch";
     AddTransactionModal.amount := "12.50";
     AddTransactionModal.type := EXPENSE;
     AddTransactionModal.date := "2024-03-01" |}.

(** A reply of the text service with a negative amount. *)
Definition refundReply : Gemini.Reply :=
  {| Gemini.description := Some "Refund"; Gemini.amount := Some (-5)%Q;
     Gemini.type := Some "expense"; Gemini.date := None |}.

(** The application right after start in a fresh browser. *)
Definition started : App.State :=
  {| App.transactions := []; App.editingTransaction := None; App.selectedId := None;
     App.deleteId := None; App.storage := fresh |}.

Definition dinner : Store.PartialTransaction :=
  {| Store.p_id := None; Store.p_date := None; Store.p_description := Some "Dinner";
     Store.p_amount := Some 45%Q; Store.p_type := None |}.

End Sample.

(** * Properties *)

(** ** Sums *)

Section Sums.

Lemma isType_spec k t : App.isType k t = true <-> Spec.ofKind k t.
Proof.
  unfold App.isType, Spec.ofKind.
  destruct (type t), k; simpl; split; (congruence || reflexivity).
Qed.

Lemma fold_sum_shift (l : list Transaction) (a : Q) :
  (fold_left (fun acc t => acc + amount t) l a
   == a + fold_left (fun acc t => acc + amount t) l 0)%Q.
Proof.
  revert a. induction l as [|t l IH]; intros a; simpl.
  - ring.
  - rewrite (IH (a + amount t)%Q), (IH (0 + amount t)%Q). ring.
Qed.

Lemma sum_cons (t : Transaction) (l : list Transaction) :
  (App.sum (t :: l) == amount t + App.sum l)%Q.
Proof.
  unfold App.sum. simpl. rewrite fold_sum_shift. ring.
Qed.

(** [filter] then [reduce], as the code sums, against the sum of the
    specification. *)
Lemma sum_filter_spec (f : Transaction -> bool) (P : Transaction -> Prop)
    `{!forall t, Decision (P t)} (l : list Transaction) :
  (forall t, f t = true <-> P t) ->
  (App.sum (List.filter f l) == Spec.sumOf P l)%Q.
Proof.
  intros Hf. induction l as [|t l IH]; simpl.
  - reflexivity.
  - destruct (f t) eqn:E, (decide (P t)) as [HP|HP].
    + rewrite sum_cons, IH. reflexivity.
    + apply Hf in E. contradiction.
    + apply Hf in HP. congruence.
    + exact IH.
Qed.

End Sums.

(** C1.  For every transaction collection the summary's total balance is the
    total income minus the total expense, the total income being the sum of
    the amounts of the transactions of kind Income and the total expense the
    sum of the amounts of those of kind Expense. *)
Theorem stats_totalBalance (weekdayShort : string -> string) (now : Z)
    (transactions : list Transaction) :
  let s := App.stats weekdayShort now transactions in
  totalBalance s = (totalIncome s - totalExpense s)%Q
  /\ (totalIncome s == Spec.sumOf (Spec.ofKind INCOME) transactions)%Q
  /\ (totalExpense s == Spec.sumOf (Spec.ofKind EXPENSE) transactions)%Q.
Proof.
  cbn zeta. unfold App.stats; cbn [totalBalance totalIncome totalExpense].
  split; [reflexivity|].
  split; apply sum_filter_spec; intros t; apply isType_spec.
Qed.

(** ** The trailing week *)

Section Week.



Lemma expenseOn_spec (d : string) (t : Transaction) :
  (String.eqb (date t) d && App.isType EXPENSE t)%bool = true <-> Spec.expenseOn d t.
Proof.
  unfold Spec.expenseOn.
  rewrite andb_true_iff, isType_spec, String.eqb_eq. unfold Spec.ofKind. tauto.
Qed.


End Week.


(** ** The spend-versus-income pie *)

Section Pie.

Lemma max0_Qmax (x : Q) : UserProfileModal.max0 x = Qmax 0 x.
Proof.
  unfold UserProfileModal.max0, Qmax, GenericMinMax.gmax.
  destruct (Qle_bool x 0) eqn:E.
  - apply Qle_bool_iff in E.
    destruct (0 ?= x)%Q eqn:C; try reflexivity.
    apply Qlt_alt in C. exfalso. exact (Qlt_not_le _ _ C E).
  - destruct (0 ?= x)%Q eqn:C; try reflexivity; exfalso.
    + apply Qeq_alt in C.
      assert (Qle_bool x 0 = true) by (apply Qle_bool_iff; rewrite <- C; apply Qle_refl).
      congruence.
    + apply Qgt_alt in C.
      assert (Qle_bool x 0 = true) by (apply Qle_bool_iff, Qlt_le_weak, C).
      congruence.
Qed.

(** The code's test [item.value > 0] keeps exactly the values that are not
    at most zero. *)
Lemma positive_keeps (v : Q) :
  match (v ?= 0)%Q with Gt => true | _ => false end
  = negb (bool_decide (v <= 0)%Q).
Proof.
  destruct (v ?= 0)%Q eqn:C.
  - apply Qeq_alt in C. rewrite bool_decide_eq_true_2; [reflexivity|].
    rewrite C. apply Qle_refl.
  - apply Qlt_alt in C. rewrite bool_decide_eq_true_2; [reflexivity|].
    apply Qlt_le_weak, C.
  - apply Qgt_alt in C. rewrite bool_decide_eq_false_2; [reflexivity|].
    apply Qlt_not_le, C.
Qed.

Lemma data_omitting (transactions : list Transaction) :
  let r := UserProfileModal.reportData transactions in
  UserProfileModal.report_data r
  = Spec.omitting (fun v => v <= 0)%Q
      (Spec.slices (UserProfileModal.report_totalExpense r)
                   (UserProfileModal.report_totalIncome r)).
Proof.
  cbn zeta. unfold UserProfileModal.reportData.
  cbn [UserProfileModal.report_data UserProfileModal.report_totalExpense
       UserProfileModal.report_totalIncome].
  unfold UserProfileModal.data, Spec.omitting, Spec.slices.
  rewrite max0_Qmax.
  apply filter_ext. intros s. apply positive_keeps.
Qed.

(** For a value that is not negative, being at most zero is being zero. *)
Lemma omitting_nonneg (l : list UserProfileModal.Slice) :
  Forall (fun s => 0 <= UserProfileModal.slice_value s)%Q l ->
  Spec.omitting (fun v => v <= 0)%Q l = Spec.omitting (fun v => v == 0)%Q l.
Proof.
  intros H. unfold Spec.omitting. apply filter_ext_in. intros s Hs.
  rewrite List.Forall_forall in H. specialize (H s Hs). f_equal.
  apply bool_decide_ext. split; intros E.
  - apply Qle_antisym; assumption.
  - rewrite E. apply Qle_refl.
Qed.

End Pie.

(** C4, as the code has it.  The pie is the Spent slice (total expense) and
    the Remaining slice (max of 0 and income minus expense) with every slice
    whose value is not greater than zero omitted.  So it never contains a
    zero-value slice, it is the two slices less the zero-valued ones whenever
    the total expense is not negative, and it is empty when income and
    expense are both zero. *)
Theorem reportData_pie (transactions : list Transaction) :
  let r := UserProfileModal.reportData transactions in
  let te := UserProfileModal.report_totalExpense r in
  let ti := UserProfileModal.report_totalIncome r in
  (te == Spec.sumOf (Spec.ofKind EXPENSE) transactions)%Q
  /\ (ti == Spec.sumOf (Spec.ofKind INCOME) transactions)%Q
  /\ UserProfileModal.report_data r
     = Spec.omitting (fun v => v <= 0)%Q (Spec.slices te ti)
  /\ Forall (fun s => ~ (UserProfileModal.slice_value s == 0)%Q)
            (UserProfileModal.report_data r)
  /\ ((0 <= te)%Q ->
      UserProfileModal.report_data r
      = Spec.omitting (fun v => v == 0)%Q (Spec.slices te ti))
  /\ ((ti == 0)%Q -> (te == 0)%Q -> UserProfileModal.report_data r = []).
Proof.
  intros r te ti.
  split; [apply sum_filter_spec; intros t; apply isType_spec|].
  split; [apply sum_filter_spec; intros t; apply isType_spec|].
  pose proof (data_omitting transactions) as D. cbn zeta in D.
  fold r in D. fold te ti in D.
  split; [exact D|]. split; [|split].
  - rewrite D. unfold Spec.omitting. apply List.Forall_forall. intros s Hs.
    apply filter_In in Hs. destruct Hs as [_ Hs].
    apply negb_true_iff, bool_decide_eq_false in Hs.
    intros E. apply Hs. rewrite E. apply Qle_refl.
  - intros Hte. rewrite D. apply omitting_nonneg.
    unfold Spec.slices. repeat constructor; cbn [UserProfileModal.slice_value].
    + exact Hte.
    + apply Q.le_max_l.
  - intros Hti Hte. rewrite D. unfold Spec.omitting, Spec.slices.
    cbn [List.filter UserProfileModal.slice_value].
    rewrite !bool_decide_eq_true_2; [reflexivity| |].
    + apply Q.max_lub; [apply Qle_refl|]. rewrite Hti, Hte. discriminate.
    + rewrite Hte. apply Qle_refl.
Qed.

Lemma reportData_pie_witness :
  UserProfileModal.report_data (UserProfileModal.reportData Sample.lunches)
  = Spec.omitting (fun v => v == 0)%Q
      (Spec.slices
         (UserProfileModal.report_totalExpense (UserProfileModal.reportData Sample.lunches))
         (UserProfileModal.report_totalIncome (UserProfileModal.reportData Sample.lunches)))
  /\ UserProfileModal.report_data (UserProfileModal.reportData []) = [].
Proof.
  split.
  - destruct (reportData_pie Sample.lunches) as (_ & _ & _ & _ & H & _).
    apply H. vm_compute. discriminate.
  - destruct (reportData_pie []) as (_ & _ & _ & _ & _ & H).
    apply H; reflexivity.
Defined.

(** C4 as stated fails on a collection whose total expense is negative: the
    Spent slice of value -5 is not a zero-value slice, and is omitted. *)
Lemma reportData_pie_negative_expense :
  let r := UserProfileModal.reportData Sample.refund in
  (UserProfileModal.report_totalExpense r == -5)%Q
  /\ map UserProfileModal.slice_name (UserProfileModal.report_data r) = ["Remaining"]
  /\ UserProfileModal.report_data r
     <> Spec.omitting (fun v => v == 0)%Q
          (Spec.slices (UserProfileModal.report_totalExpense r)
                       (UserProfileModal.report_totalIncome r)).
Proof.
  cbn zeta. split; [reflexivity|]. split; [reflexivity|].
  vm_compute. discriminate.
Qed.

(** ** The breakdown by description *)

Section Breakdown.

Import UserProfileModal.

Lemma numSum_app (a b : list Value) :
  (Spec.numSum (a ++ b) == Spec.numSum a + Spec.numSum b)%Q.
Proof.
  induction a as [|v a IH]; simpl.
  - ring.
  - rewrite IH. ring.
Qed.

Lemma numSum_perm (a b : list Value) :
  Permutation a b -> (Spec.numSum a == Spec.numSum b)%Q.
Proof.
  induction 1; simpl.
  - reflexivity.
  - rewrite IHPermutation. reflexivity.
  - ring.
  - etransitivity; eassumption.
Qed.

Lemma insert_perm {A} (after : A -> A -> bool) (x : A) (l : list A) :
  Permutation (insert after x l) (x :: l).
Proof.
  induction l as [|y l IH]; simpl.
  - reflexivity.
  - destruct (after x y).
    + rewrite IH. apply perm_swap.
    + reflexivity.
Qed.

Lemma sort_perm {A} (after : A -> A -> bool) (l : list A) :
  Permutation (sort after l) l.
Proof.
  induction l as [|x l IH]; simpl.
  - reflexivity.
  - rewrite insert_perm. apply perm_skip, IH.
Qed.

Lemma filter_split_perm {A} (f g : A -> bool) (l : list A) :
  (forall x, g x = negb (f x)) ->
  Permutation (List.filter f l ++ List.filter g l) l.
Proof.
  intros Hg. induction l as [|x l IH]; simpl.
  - reflexivity.
  - rewrite Hg. destruct (f x); simpl.
    + apply perm_skip, IH.
    + symmetry. apply Permutation_cons_app. symmetry. exact IH.
Qed.

Lemma entries_perm (o : Obj) : Permutation (entries o) o.
Proof.
  unfold entries. rewrite sort_perm.
  apply filter_split_perm. intros e. destruct (arrayIndex (fst e)); reflexivity.
Qed.

(** Writing a number over the property [key] changes the total by the
    difference to what was there. *)
Lemma put_numSum (acc : Obj) (key : string) (q : Q) :
  (Spec.numSum (map snd (put acc key (VNum q)))
   == Spec.numSum (map snd acc) + q
      - match own acc key with Some v => Spec.num v | None => 0 end)%Q.
Proof.
  induction acc as [|[k w] acc IH]; simpl.
  - ring.
  - destruct (String.eqb k key); simpl.
    + ring.
    + rewrite IH. ring.
Qed.

Lemma put_isNum (acc : Obj) (key : string) (q : Q) :
  Forall Spec.isNum (map snd acc) ->
  Forall Spec.isNum (map snd (put acc key (VNum q))).
Proof.
  induction acc as [|[k w] acc IH]; simpl; intros H.
  - repeat constructor.
  - inversion H; subst. destruct (String.eqb k key); simpl.
    + constructor; [exact I | assumption].
    + constructor; [assumption | apply IH; assumption].
Qed.

Lemma own_isNum (acc : Obj) (key : string) (v : Value) :
  Forall Spec.isNum (map snd acc) -> own acc key = Some v -> Spec.isNum v.
Proof.
  induction acc as [|[k w] acc IH]; simpl; intros H E.
  - discriminate.
  - inversion H; subst. destruct (String.eqb k key).
    + injection E as <-. assumption.
    + apply IH; assumption.
Qed.

Lemma proto_reserved : inObjectPrototype "__proto__" = true.
Proof. reflexivity. Qed.

(** One step of the reduction on a description that is no property name of
    [Object.prototype]: the values stay numbers and the total grows by the
    amount. *)
Lemma step_plain (acc : Obj) (key : string) (a : Q) :
  inObjectPrototype key = false ->
  Forall Spec.isNum (map snd acc) ->
  let acc' := set acc key (bump (get acc key) a) in
  Forall Spec.isNum (map snd acc')
  /\ (Spec.numSum (map snd acc') == Spec.numSum (map snd acc) + a)%Q.
Proof.
  intros Hkey Hnum. cbn zeta. unfold set.
  destruct (String.eqb key "__proto__") eqn:E.
  { apply String.eqb_eq in E. subst key. rewrite proto_reserved in Hkey. discriminate. }
  unfold get. rewrite Hkey.
  destruct (own acc key) as [v|] eqn:O.
  - pose proof (own_isNum acc key v Hnum O) as Hv.
    destruct v as [q|]; [|destruct Hv]. simpl.
    destruct (Qeq_bool q 0) eqn:Z.
    + apply Qeq_bool_iff in Z. split; [apply put_isNum, Hnum|].
      rewrite put_numSum, O. simpl. rewrite Z. ring.
    + split; [apply put_isNum, Hnum|].
      rewrite put_numSum, O. simpl. ring.
  - simpl. split; [apply put_isNum, Hnum|].
    rewrite put_numSum, O. ring.
Qed.

Lemma byItem_plain (l : list Transaction) (acc : Obj) :
  Forall (fun t => inObjectPrototype (JS.trim (description t)) = false) l ->
  Forall Spec.isNum (map snd acc) ->
  let o := fold_left (fun acc t =>
                        let key := JS.trim (description t) in
                        set acc key (bump (get acc key) (amount t))) l acc in
  Forall Spec.isNum (map snd o)
  /\ (Spec.numSum (map snd o) == Spec.numSum (map snd acc) + App.sum l)%Q.
Proof.
  revert acc. induction l as [|t l IH]; intros acc Hl Hacc; cbn zeta; simpl.
  - split; [assumption|]. unfold App.sum. simpl. ring.
  - inversion Hl; subst.
    destruct (step_plain acc (JS.trim (description t)) (amount t)) as [N S]; try assumption.
    destruct (IH _ H2 N) as [N' S']. cbn zeta in N', S'.
    split; [exact N'|]. rewrite S', S, sum_cons. ring.
Qed.

Lemma valuesTotal_nums (items : list Item) :
  Forall Spec.isNum (map value items) ->
  Spec.valuesTotal items = Some (Spec.numSum (map value items)).
Proof.
  induction items as [|i items IH]; simpl; intros H.
  - reflexivity.
  - inversion H; subst. rewrite IH by assumption.
    destruct (value i); [reflexivity | contradiction].
Qed.

Lemma fold_plusValue (items : list Item) (a : Q) :
  Forall Spec.isNum (map value items) ->
  exists z, fold_left (fun s i => plusValue s (value i)) items (VNum a) = VNum z
            /\ (z == a + Spec.numSum (map value items))%Q.
Proof.
  revert a. induction items as [|i items IH]; simpl; intros a H.
  - exists a. split; [reflexivity | ring].
  - inversion H; subst. destruct (value i) as [q|]; [|contradiction]. simpl.
    destruct (IH (a + q)%Q) as (z & E & S); [assumption|].
    exists z. split; [exact E|]. rewrite S. ring.
Qed.

Lemma values_of_entries (o : Obj) :
  map value (map (fun e => {| name := fst e; value := snd e |}) (entries o))
  = map snd (entries o).
Proof. rewrite map_map. reflexivity. Qed.

(** When no expense is described by a property name of [Object.prototype],
    the list has at most six entries, all its values are numbers, and they
    add up to the total expense. *)
Theorem topExpenses_plain (transactions : list Transaction) :
  Spec.plainDescriptions transactions ->
  let r := reportData transactions in
  (length (report_topExpenses r) <= 6)%nat
  /\ exists s, Spec.valuesTotal (report_topExpenses r) = Some s
               /\ (s == report_totalExpense r)%Q.
Proof.
  intros Hplain. cbn zeta. unfold reportData.
  cbn [report_topExpenses report_totalExpense]. unfold topExpenses.
  set (expenses := List.filter (App.isType EXPENSE) transactions).
  assert (Hexp : Forall (fun t => inObjectPrototype (JS.trim (description t)) = false)
                        expenses).
  { apply List.Forall_forall. intros t Ht. apply filter_In in Ht. destruct Ht as [Ht Hk].
    unfold Spec.plainDescriptions in Hplain. rewrite List.Forall_forall in Hplain.
    apply Hplain; [exact Ht | apply isType_spec, Hk]. }
  destruct (byItem_plain expenses [] Hexp (List.Forall_nil _)) as [N S].
  cbn zeta in N, S. fold (byItem expenses) in N, S.
  set (sorted := sort byValueDesc _).
  assert (P : Permutation (map value sorted) (map snd (byItem expenses))).
  { unfold sorted. rewrite sort_perm, values_of_entries.
    apply Permutation_map, entries_perm. }
  assert (Ns : Forall Spec.isNum (map value sorted)).
  { eapply Permutation_Forall; [symmetry; exact P | exact N]. }
  assert (Ss : (Spec.numSum (map value sorted) == App.sum expenses)%Q).
  { rewrite (numSum_perm _ _ P), S. simpl. ring. }
  destruct (5 <? length sorted)%nat eqn:L.
  - rewrite <- (firstn_skipn 5 sorted), map_app in Ns, Ss.
    apply Forall_app in Ns. destruct Ns as [N1 N2].
    destruct (fold_plusValue (skipn 5 sorted) 0 N2) as (z & E & Z).
    rewrite E. split.
    + rewrite length_app, length_firstn. cbn [length]. lia.
    + eexists. split.
      * apply valuesTotal_nums. rewrite map_app. apply Forall_app. split; [exact N1|].
        repeat constructor.
      * rewrite map_app, numSum_app. simpl. rewrite Z.
        rewrite numSum_app in Ss. rewrite <- Ss. ring.
  - apply Nat.ltb_ge in L. split; [lia|].
    eexists. split; [apply valuesTotal_nums, Ns | exact Ss].
Qed.

End Breakdown.

Lemma topExpenses_plain_lunches :
  let r := UserProfileModal.reportData Sample.lunches in
  (length (UserProfileModal.report_topExpenses r) <= 6)%nat
  /\ exists s, Spec.valuesTotal (UserProfileModal.report_topExpenses r) = Some s
               /\ (s == UserProfileModal.report_totalExpense r)%Q.
Proof.
  apply topExpenses_plain. unfold Spec.plainDescriptions, Sample.lunches.
  repeat constructor.
Defined.

(** C3 at an expense described as ["__proto__"]: the assignment to that name
    is swallowed by the accessor of [Object.prototype], the list of top
    expenses stays empty and its values add up to 0, not to the total
    expense of 50.  At an expense described as ["toString"] the entry's value
    is a string and the values have no numeric sum at all. *)
Theorem topExpenses_prototype_names :
  let r := UserProfileModal.reportData Sample.proto in
  let r' := UserProfileModal.reportData Sample.toString in
  UserProfileModal.report_topExpenses r = []
  /\ Spec.valuesTotal (UserProfileModal.report_topExpenses r) = Some 0%Q
  /\ (UserProfileModal.report_totalExpense r == 50)%Q
  /\ UserProfileModal.report_topExpenses r'
     = [ {| UserProfileModal.name := "toString";
            UserProfileModal.value := UserProfileModal.VText |} ]
  /\ Spec.valuesTotal (UserProfileModal.report_topExpenses r') = None.
Proof.
  cbn zeta. repeat split; reflexivity.
Qed.

(** ** The offline store *)

Section StoreFacts.

Lemma filter_absent (i : string) (l : list Transaction) :
  ~ In i (map id l) ->
  List.filter (fun t => negb (String.eqb (id t) i)) l = l.
Proof.
  induction l as [|t l IH]; simpl; intros H.
  - reflexivity.
  - destruct (String.eqb_spec (id t) i) as [E|E]; simpl.
    + exfalso. apply H. left. exact E.
    + f_equal. apply IH. intros Hin. apply H. right. exact Hin.
Qed.

Lemma filter_twice {A} (f : A -> bool) (l : list A) :
  List.filter f (List.filter f l) = List.filter f l.
Proof.
  induction l as [|x l IH]; simpl.
  - reflexivity.
  - destruct (f x) eqn:E; simpl; rewrite ?E, IH; reflexivity.
Qed.

Lemma map_absent (i : string) (data : Store.PartialTransaction) (l : list Transaction) :
  ~ In i (map id l) ->
  map (fun t => if String.eqb (id t) i then Store.spread t data else t) l = l.
Proof.
  induction l as [|t l IH]; simpl; intros H.
  - reflexivity.
  - destruct (String.eqb_spec (id t) i) as [E|E].
    + exfalso. apply H. left. exact E.
    + f_equal. apply IH. intros Hin. apply H. right. exact Hin.
Qed.

Lemma map_frame (i : string) (data : Store.PartialTransaction) (l : list Transaction) :
  Forall2 (fun t t' => (id t <> i -> t' = t) /\ (id t = i -> t' = Store.spread t data))
          l (map (fun t => if String.eqb (id t) i then Store.spread t data else t) l).
Proof.
  induction l as [|t l IH]; simpl; constructor; [|exact IH].
  destruct (String.eqb_spec (id t) i) as [E|E]; split; intros H;
    (reflexivity || contradiction).
Qed.

End StoreFacts.

(** C6.  Offline, deleting an identifier that no stored transaction carries
    leaves the stored collection (and the stored profile) as it was; deleting
    is idempotent. *)
Theorem deleteTransaction_absent (i : string) (st : Store.LocalStorage) :
  ~ In i (map id (Store.savedTransactions st)) ->
  Store.savedTransactions (Store.deleteTransaction i st) = Store.savedTransactions st
  /\ Store.pocketbook_user (Store.deleteTransaction i st) = Store.pocketbook_user st
  /\ Store.deleteTransaction i (Store.deleteTransaction i st) = Store.deleteTransaction i st.
Proof.
  intros H. unfold Store.deleteTransaction, Store.setData.
  cbn [Store.savedTransactions Store.pocketbook_data Store.pocketbook_user].
  rewrite filter_twice. repeat split. apply filter_absent, H.
Qed.

Lemma deleteTransaction_absent_witness :
  Store.savedTransactions (Store.deleteTransaction "t9" Sample.browser) = Sample.lunches
  /\ Store.pocketbook_user (Store.deleteTransaction "t9" Sample.browser) = Some Sample.ann
  /\ Store.deleteTransaction "t9" (Store.deleteTransaction "t9" Sample.browser)
     = Store.deleteTransaction "t9" Sample.browser.
Proof.
  apply (deleteTransaction_absent "t9" Sample.browser).
  simpl. intros [H|[H|[H|[]]]]; discriminate H.
Defined.

(** C10.  Offline, [updateTransaction] keeps the length and the order of the
    stored collection: position by position, a transaction with another
    identifier is unchanged and one with the given identifier is overlaid
    with the data; when no transaction has the identifier the collection is
    unchanged. *)
Theorem updateTransaction_frame (i : string) (data : Store.PartialTransaction)
    (st : Store.LocalStorage) :
  let before := Store.savedTransactions st in
  let after := Store.savedTransactions (Store.updateTransaction i data st) in
  length after = length before
  /\ Forall2 (fun t t' => (id t <> i -> t' = t) /\ (id t = i -> t' = Store.spread t data))
             before after
  /\ (~ In i (map id before) -> after = before)
  /\ Store.pocketbook_user (Store.updateTransaction i data st) = Store.pocketbook_user st.
Proof.
  cbn zeta. unfold Store.updateTransaction, Store.setData.
  cbn [Store.savedTransactions Store.pocketbook_data Store.pocketbook_user].
  split; [apply length_map|]. split; [apply map_frame|].
  split; [apply map_absent | reflexivity].
Qed.

Lemma updateTransaction_frame_witness :
  Store.savedTransactions (Store.updateTransaction "t9" Sample.dinner Sample.browser)
  = Sample.lunches.
Proof.
  destruct (updateTransaction_frame "t9" Sample.dinner Sample.browser) as (_ & _ & H & _).
  apply H. simpl. intros [E|[E|[E|[]]]]; discriminate E.
Defined.

(** C9.  Offline, [loginUser] never looks at the password: it resolves to the
    stored profile whenever the identifier is the profile's name or its
    guardian email, and it throws exactly when no stored profile matches the
    identifier. *)
Theorem loginUser_ignores_password (emailOrName password : string)
    (st : Store.LocalStorage) :
  let matches user :=
    Store.pocketbook_user st = Some user
    /\ (name user = emailOrName \/ guardianEmail user = Some emailOrName) in
  (forall password',
      Store.loginUser emailOrName password' st = Store.loginUser emailOrName password st)
  /\ (forall user, matches user ->
                   Store.loginUser emailOrName password st = Store.Resolved user)
  /\ ((exists message, Store.loginUser emailOrName password st = Store.Thrown message)
      <-> ~ exists user, matches user).
Proof.
  cbn zeta. split; [reflexivity|].
  unfold Store.loginUser.
  destruct (Store.pocketbook_user st) as [u|]; cycle 1.
  { split.
    - intros user [E _]. discriminate E.
    - split; [intros _ (user & E & _); discriminate E | intros _; eexists; reflexivity]. }
  assert (M : (String.eqb (name u) emailOrName
               || Store.optionalIs (guardianEmail u) emailOrName)%bool = true
              <-> (name u = emailOrName \/ guardianEmail u = Some emailOrName)).
  { rewrite orb_true_iff, String.eqb_eq. unfold Store.optionalIs.
    destruct (guardianEmail u) as [g|].
    - rewrite String.eqb_eq. split; (intros [H|H]; [left; exact H | right; congruence]).
    - split; (intros [H|H]; [left; exact H | discriminate H]). }
  destruct (String.eqb (name u) emailOrName
            || Store.optionalIs (guardianEmail u) emailOrName)%bool.
  - split.
    + intros user [E _]. congruence.
    + split.
      * intros [m E]. discriminate E.
      * intros H. exfalso. apply H. exists u. split; [reflexivity | apply M; reflexivity].
  - split.
    + intros user [E H]. injection E as <-. apply M in H. discriminate H.
    + split.
      * intros _ (user & E & H). injection E as <-. apply M in H. discriminate H.
      * intros _. eexists; reflexivity.
Qed.

Lemma loginUser_ignores_password_witness :
  Store.loginUser "mum@example.org" "not the password" Sample.browser
  = Store.Resolved Sample.ann.
Proof.
  destruct (loginUser_ignores_password "mum@example.org" "not the password" Sample.browser)
    as (_ & H & _).
  apply H. split; [reflexivity | right; reflexivity].
Defined.

(** ** Amounts as entered *)

Section Amounts.

Lemma digitValue_nonneg (radix : Z) (c : ascii) (v : Z) :
  JS.digitValue radix c = Some v -> 0 <= v.
Proof.
  unfold JS.digitValue. cbn zeta.
  set (n := Z.of_nat (nat_of_ascii c)).
  destruct ((48 <=? n) && (n <=? 57))%bool eqn:D.
  - apply andb_true_iff in D. destruct D as [D _]. apply Z.leb_le in D.
    destruct (n - 48 <? radix); intros E; inversion E; lia.
  - destruct ((97 <=? n) && (n <=? 122))%bool eqn:L.
    + apply andb_true_iff in L. destruct L as [L _]. apply Z.leb_le in L.
      destruct (n - 87 <? radix); intros E; inversion E; lia.
    + destruct ((65 <=? n) && (n <=? 90))%bool eqn:U.
      * apply andb_true_iff in U. destruct U as [U _]. apply Z.leb_le in U.
        destruct (n - 55 <? radix); intros E; inversion E; lia.
      * destruct (99 <? radix); intros E; inversion E; lia.
Qed.

Lemma readDigits_nonneg (radix : Z) (s : string) :
  0 <= radix ->
  forall count acc, 0 <= acc -> 0 <= snd (fst (JS.readDigits radix s count acc)).
Proof.
  intros Hr. induction s as [|c s IH]; intros count acc Hacc; simpl.
  - exact Hacc.
  - destruct (JS.digitValue radix c) as [v|] eqn:D; simpl.
    + apply IH. apply digitValue_nonneg in D. nia.
    + exact Hacc.
Qed.

Lemma scale10_nonneg (m e : Z) : 0 <= m -> (0 <= JS.scale10 m e)%Q.
Proof.
  intros Hm. unfold JS.scale10. destruct (0 <=? e) eqn:E.
  - apply Z.leb_le in E. unfold Qle. simpl.
    assert (0 <= 10 ^ e) by (apply Z.pow_nonneg; lia). nia.
  - unfold Qle. simpl. lia.
Qed.

(** [parseFloat] gives a negative number only for a text that begins with
    a minus sign. *)
Lemma parseFloat_nonneg (input : string) (q : Q) :
  JS.parseFloat input = Some q -> ~ Spec.minusSign input -> (0 <= q)%Q.
Proof.
  unfold JS.parseFloat, Spec.minusSign. intros E Hminus.
  assert (Hsign : fst (JS.readSign (JS.trimStart input)) = 1).
  { unfold JS.readSign. destruct (JS.trimStart input) as [|c r]; [reflexivity|].
    destruct (Ascii.eqb_spec c "-") as [->|_].
    - exfalso. apply Hminus. eexists; reflexivity.
    - destruct (Ascii.eqb c "+"); reflexivity. }
  destruct (JS.readSign (JS.trimStart input)) as [sign s0]. simpl in Hsign. subst sign.
  pose proof (readDigits_nonneg 10 s0 ltac:(lia) 0%nat 0 ltac:(lia)) as Hint.
  destruct (JS.readDigits 10 s0 0 0) as [[ni int] s1]. simpl in Hint.
  assert (Hmant : forall nf mant s2,
             match s1 with
             | String c r => if Ascii.eqb c "." then JS.readDigits 10 r 0 int
                             else (O, int, s1)
             | EmptyString => (O, int, s1)
             end = (nf, mant, s2) -> 0 <= mant).
  { intros nf mant s2 M. destruct s1 as [|c r].
    - inversion M; subst; exact Hint.
    - destruct (Ascii.eqb c ".").
      + pose proof (readDigits_nonneg 10 r ltac:(lia) 0%nat int Hint) as H.
        rewrite M in H. exact H.
      + inversion M; subst; exact Hint. }
  destruct (match s1 with
            | String c r => if Ascii.eqb c "." then JS.readDigits 10 r 0 int
                            else (O, int, s1)
            | EmptyString => (O, int, s1)
            end) as [[nf mant] s2].
  specialize (Hmant nf mant s2 eq_refl).
  destruct ni, nf; try discriminate E; injection E as <-;
    apply scale10_nonneg; lia.
Qed.

End Amounts.

(** C5, as the code has it.  A transaction created from the entry form is
    stored with the number [parseFloat] reads from the form's amount text, and
    the text parser hands on the amount of the service's reply; neither path
    checks the sign.  The stored amount of a manual entry is not negative
    unless the amount text begins with a minus sign, and the amount of a
    parsed text is not negative exactly when the reply's amount is not. *)
Theorem amount_as_entered :
  (forall (f : AddTransactionModal.Form) (data : Store.EntryData),
      AddTransactionModal.handleManualSubmit f = AddTransactionModal.Saved data ->
      JS.parseFloat (AddTransactionModal.amount f) = Some (Store.entry_amount data)
      /\ (~ Spec.minusSign (AddTransactionModal.amount f) ->
          (0 <= Store.entry_amount data)%Q)
      /\ forall (uuid : string) (s : App.State),
          App.editingTransaction s = None ->
          Store.savedTransactions (App.storage (App.handleSaveTransaction uuid data s))
          = Store.newItem uuid data :: Store.savedTransactions (App.storage s)
          /\ amount (Store.newItem uuid data) = Store.entry_amount data)
  /\ (forall (json : Gemini.Reply) (p : ParsedTransaction),
         Gemini.parseTransactionFromText json = Some p ->
         Gemini.amount json = Some (parsed_amount p)
         /\ ((0 <= parsed_amount p)%Q
             <-> exists a, Gemini.amount json = Some a /\ (0 <= a)%Q)).
Proof.
  split.
  - intros f data H. unfold AddTransactionModal.handleManualSubmit in H.
    destruct (negb (JS.truthy (AddTransactionModal.description f))
              || negb (JS.truthy (AddTransactionModal.amount f)))%bool; [discriminate H|].
    destruct (JS.parseFloat (AddTransactionModal.amount f)) as [a|] eqn:P; [|discriminate H].
    injection H as <-. cbn [Store.entry_amount].
    split; [reflexivity|]. split.
    + intros Hm. exact (parseFloat_nonneg _ _ P Hm).
    + intros uuid s Hs. unfold App.handleSaveTransaction. rewrite Hs.
      cbn. split; reflexivity.
  - intros json p H. unfold Gemini.parseTransactionFromText in H.
    destruct (Gemini.description json) as [d|]; [|discriminate H].
    destruct (Gemini.amount json) as [a|]; [|discriminate H].
    destruct (JS.truthy d); [|discriminate H].
    injection H as <-. cbn [parsed_amount].
    split; [reflexivity|]. split.
    + intros Ha. exists a. split; [reflexivity | exact Ha].
    + intros (a' & E & Ha). injection E as <-. exact Ha.
Qed.

Lemma amount_as_entered_witness :
  exists data,
    AddTransactionModal.handleManualSubmit Sample.lunchForm = AddTransactionModal.Saved data
    /\ (0 <= Store.entry_amount data)%Q
    /\ map amount
         (Store.savedTransactions
            (App.storage (App.handleSaveTransaction "id-1" data Sample.started)))
       = [Store.entry_amount data].
Proof.
  eexists. split; [reflexivity|].
  destruct amount_as_entered as [H _].
  destruct (H Sample.lunchForm _ eq_refl) as (_ & Hpos & Hstore).
  split.
  - apply Hpos. intros [r E]. discriminate E.
  - destruct (Hstore "id-1" Sample.started eq_refl) as [-> _]. reflexivity.
Defined.

(** C5 as stated fails: the form accepts the amount text "-5" and the
    transaction is stored with the amount -5; the text parser likewise hands
    on a negative amount of the reply. *)
Lemma negative_amount_stored :
  exists data p,
    AddTransactionModal.handleManualSubmit Sample.refundForm = AddTransactionModal.Saved data
    /\ map amount
         (Store.savedTransactions
            (App.storage (App.handleSaveTransaction "id-1" data Sample.started)))
       = [(-5)%Q]
    /\ Gemini.parseTransactionFromText Sample.refundReply = Some p
    /\ parsed_amount p = (-5)%Q
    /\ ~ (0 <= -5)%Q.
Proof.
  do 2 eexists. repeat split; try reflexivity.
  intros H. vm_compute in H. apply H. reflexivity.
Qed.

(** ** Registration *)

Section Registration.

Lemma no_errors (m : gmap string string) :
  (0 <? size m)%nat = false -> m = ∅.
Proof.
  intros H. apply Nat.ltb_ge in H. apply map_size_empty_iff. lia.
Qed.

Lemma some_error (m : gmap string string) (k v : string) :
  m !! k = Some v -> (0 <? size m)%nat = true.
Proof.
  intros H. apply Nat.ltb_lt.
  destruct (size m) eqn:E; [|lia].
  apply map_size_empty_iff in E. subst m. rewrite lookup_empty in H. discriminate H.
Qed.

(** Validation leaves no [age] error only for an age that is a number from
    5 to 100. *)
Lemma validate_age_number (f : AuthScreen.Form) :
  AuthScreen.validate f !! "age" = None ->
  exists n, JS.parseInt (AuthScreen.ageInput f) = Some n /\ 5 <= n <= 100.
Proof.
  unfold AuthScreen.validate. cbn zeta.
  destruct (JS.parseInt (AuthScreen.ageInput f)) as [n|] eqn:P.
  - destruct ((n <? 5) || (100 <? n))%bool eqn:R.
    + repeat case_match; intros ?; simplify_map_eq.
    + intros _. exists n. split; [reflexivity|].
      apply orb_false_iff in R. destruct R as [R1 R2].
      apply Z.ltb_ge in R1, R2. lia.
  - repeat case_match; intros ?; simplify_map_eq.
Qed.

(** Under 18 with neither guardian contact: the [guardianSection] error. *)
Lemma validate_guardianSection (f : AuthScreen.Form) (n : Z) :
  JS.parseInt (AuthScreen.ageInput f) = Some n ->
  n <= 17 ->
  JS.trim (AuthScreen.guardianEmail f) = "" ->
  JS.trim (AuthScreen.guardianPhone f) = "" ->
  AuthScreen.validate f !! "guardianSection"
  = Some "Please provide either an email or phone number.".
Proof.
  intros P Hn He Hp. unfold AuthScreen.validate. cbn zeta.
  rewrite P, He, Hp. unfold AuthScreen.isUnderage.
  apply Z.leb_le in Hn. rewrite Hn. simpl.
  apply lookup_insert_eq.
Qed.

End Registration.

(** C7.  A profile that registration hands to [registerUser] has an age from
    5 to 100; a guardian email or phone is present in it only when the age is
    at most 17, and for an age above 17 both are absent. *)
Theorem registered_guardian_fields (displayId : string) (f : AuthScreen.Form)
    (st : Store.LocalStorage) (profile : UserProfile) :
  In (AuthScreen.call_registerUser profile)
     (fst (AuthScreen.handleSubmit displayId f st)) ->
  5 <= age profile <= 100
  /\ (guardianEmail profile <> None \/ guardianPhone profile <> None -> age profile <= 17)
  /\ (17 < age profile -> guardianEmail profile = None /\ guardianPhone profile = None).
Proof.
  unfold AuthScreen.handleSubmit.
  destruct (AuthScreen.isLoginMode f).
  { repeat case_match; simpl; intros ?; intuition discriminate. }
  destruct (0 <? size (AuthScreen.validate f))%nat eqn:V.
  { simpl; intros H; intuition discriminate. }
  apply no_errors in V.
  destruct (validate_age_number f) as (n & P & Hn).
  { rewrite V. apply lookup_empty. }
  simpl. intros [H|[H|[H|[]]]]; try discriminate H.
  injection H as <-. unfold AuthScreen.userProfile. cbn zeta.
  cbn [age guardianEmail guardianPhone]. rewrite P. unfold AuthScreen.isUnderage.
  split; [exact Hn|].
  destruct (n <=? 17) eqn:U.
  - apply Z.leb_le in U. split; [intros _; exact U | lia].
  - simpl. split; [intros [H|H]; contradiction | intros _; split; reflexivity].
Qed.

Lemma registered_guardian_fields_witness :
  let profile := AuthScreen.userProfile "12345678" (Sample.teen "mum@example.org" "") in
  guardianEmail profile = Some "mum@example.org"
  /\ 5 <= age profile <= 100
  /\ (guardianEmail profile <> None \/ guardianPhone profile <> None -> age profile <= 17)
  /\ (17 < age profile -> guardianEmail profile = None /\ guardianPhone profile = None).
Proof.
  cbn zeta. split; [reflexivity|].
  apply (registered_guardian_fields "12345678" (Sample.teen "mum@example.org" "")
           Sample.fresh).
  vm_compute. right. left. reflexivity.
Defined.

(** C8.  A registration whose age input reads as a number of 17 or less and
    that gives neither a guardian email nor a guardian phone ends with the
    "provide either" error on the guardian section; [registerUser] is not
    called, [onLogin] is not called and the storage is untouched. *)
Theorem underage_needs_guardian (displayId : string) (f : AuthScreen.Form)
    (st : Store.LocalStorage) (n : Z) :
  AuthScreen.isLoginMode f = false ->
  JS.parseInt (AuthScreen.ageInput f) = Some n ->
  n <= 17 ->
  JS.trim (AuthScreen.guardianEmail f) = "" ->
  JS.trim (AuthScreen.guardianPhone f) = "" ->
  let '(trace, st') := AuthScreen.handleSubmit displayId f st in
  AuthScreen.errorsAfter trace !! "guardianSection"
  = Some "Please provide either an email or phone number."
  /\ (forall profile, ~ In (AuthScreen.call_registerUser profile) trace)
  /\ (forall user, ~ In (AuthScreen.onLogin user) trace)
  /\ st' = st.
Proof.
  intros Hmode P Hn He Hp. unfold AuthScreen.handleSubmit. rewrite Hmode.
  pose proof (validate_guardianSection f n P Hn He Hp) as G.
  rewrite (some_error _ _ _ G).
  cbn [AuthScreen.errorsAfter fold_left].
  split; [exact G|].
  repeat split; intros x [H|[H|[]]]; discriminate H.
Qed.

Lemma underage_needs_guardian_witness :
  AuthScreen.errorsAfter (fst (AuthScreen.handleSubmit "12345678" (Sample.teen "" "  ")
                                 Sample.fresh))
  !! "guardianSection"
  = Some "Please provide either an email or phone number."
  /\ snd (AuthScreen.handleSubmit "12345678" (Sample.teen "" "  ") Sample.fresh)
     = Sample.fresh.
Proof.
  pose proof (underage_needs_guardian "12345678" (Sample.teen "" "  ") Sample.fresh 16
                eq_refl eq_refl ltac:(lia) eq_refl eq_refl) as H.
  destruct (AuthScreen.handleSubmit "12345678" (Sample.teen "" "  ") Sample.fresh)
    as [trace st'].
  destruct H as (G & _ & _ & E). split; [exact G | exact E].
Defined.

(** ** More on the offline store *)

Section StoreComposition.

Lemma spread_twice (t : Transaction) (data : Store.PartialTransaction) :
  Store.spread (Store.spread t data) data = Store.spread t data.
Proof.
  unfold Store.spread, Store.orElse. cbn [id date description amount type].
  destruct (Store.p_id data), (Store.p_date data), (Store.p_description data),
    (Store.p_amount data), (Store.p_type data); reflexivity.
Qed.

Lemma overlay_twice (i : string) (data : Store.PartialTransaction) (t : Transaction) :
  let f t := if String.eqb (id t) i then Store.spread t data else t in
  f (f t) = f t.
Proof.
  cbn beta zeta. destruct (String.eqb (id t) i) eqn:E.
  - destruct (String.eqb (id (Store.spread t data)) i); [apply spread_twice | reflexivity].
  - rewrite E. reflexivity.
Qed.

Lemma ids_filter_absent (i : string) (l : list Transaction) :
  ~ In i (map id (List.filter (fun t => negb (String.eqb (id t) i)) l)).
Proof.
  rewrite in_map_iff. intros (t & E & H). apply filter_In in H. destruct H as [_ H].
  apply negb_true_iff, String.eqb_neq in H. contradiction.
Qed.

Lemma filter_sublist {A} (f : A -> bool) (l : list A) : sublist (List.filter f l) l.
Proof.
  induction l as [|x l IH]; simpl.
  - constructor.
  - destruct (f x); [apply sublist_skip | apply sublist_cons]; exact IH.
Qed.

Lemma NoDup_ids_filter (f : Transaction -> bool) (l : list Transaction) :
  List.NoDup (map id l) -> List.NoDup (map id (List.filter f l)).
Proof.
  induction l as [|t l IH]; simpl; intros H.
  - constructor.
  - inversion H as [|? ? Hin Hnd]; subst. destruct (f t); simpl.
    + constructor; [|apply IH, Hnd].
      intros Hin'. apply Hin. apply in_map_iff in Hin'. destruct Hin' as (u & E & Hu).
      apply in_map_iff. exists u. split; [exact E|]. apply filter_In in Hu. tauto.
    + apply IH, Hnd.
Qed.

Lemma ids_overlay (i : string) (data : Store.PartialTransaction) (l : list Transaction) :
  Store.p_id data = None ->
  map id (map (fun t => if String.eqb (id t) i then Store.spread t data else t) l)
  = map id l.
Proof.
  intros Hid. rewrite map_map. apply map_ext. intros t.
  destruct (String.eqb (id t) i); [|reflexivity].
  unfold Store.spread. cbn [id]. rewrite Hid. reflexivity.
Qed.

End StoreComposition.

(** X1.  Offline, applying the same update twice is applying it once, whatever
    the data (also when the data carries another identifier). *)
Theorem updateTransaction_idempotent (i : string) (data : Store.PartialTransaction)
    (st : Store.LocalStorage) :
  Store.updateTransaction i data (Store.updateTransaction i data st)
  = Store.updateTransaction i data st.
Proof.
  unfold Store.updateTransaction, Store.setData.
  cbn [Store.savedTransactions Store.pocketbook_data Store.pocketbook_user].
  f_equal. f_equal. rewrite map_map. apply map_ext. intros t.
  apply (overlay_twice i data t).
Qed.

(** X2.  Offline, after [deleteTransaction] no stored transaction carries the
    identifier; what is stored is a sublist of what was (same order), and it
    still holds every transaction with another identifier. *)
Theorem deleteTransaction_removes (i : string) (st : Store.LocalStorage) :
  let before := Store.savedTransactions st in
  let after := Store.savedTransactions (Store.deleteTransaction i st) in
  ~ In i (map id after)
  /\ sublist after before
  /\ Forall (fun t => id t = i \/ In t after) before.
Proof.
  cbn zeta. unfold Store.deleteTransaction, Store.setData.
  cbn [Store.savedTransactions Store.pocketbook_data].
  split; [apply ids_filter_absent|]. split; [apply filter_sublist|].
  apply List.Forall_forall. intros t Ht.
  destruct (String.eqb_spec (id t) i) as [E|E]; [left; exact E|right].
  apply filter_In. split; [exact Ht|]. apply negb_true_iff, String.eqb_neq, E.
Qed.

(** X3.  Offline, adding a transaction under an identifier that is not yet
    stored and then deleting that identifier gives the stored collection
    back. *)
Theorem add_then_delete (uuid : string) (data : Store.EntryData)
    (st : Store.LocalStorage) :
  ~ In uuid (map id (Store.savedTransactions st)) ->
  Store.savedTransactions
    (Store.deleteTransaction uuid (snd (Store.addTransaction uuid data st)))
  = Store.savedTransactions st.
Proof.
  intros H. unfold Store.deleteTransaction, Store.addTransaction, Store.setData.
  cbn [snd Store.savedTransactions Store.pocketbook_data List.filter Store.newItem id].
  rewrite String.eqb_refl. cbn [negb]. apply filter_absent, H.
Qed.

Lemma add_then_delete_witness :
  Store.savedTransactions
    (Store.deleteTransaction "t9"
       (snd (Store.addTransaction "t9"
               {| Store.entry_description := "Tea"; Store.entry_amount := 3%Q;
                  Store.entry_type := EXPENSE; Store.entry_date := "2024-03-02" |}
               Sample.browser)))
  = Sample.lunches.
Proof.
  apply (add_then_delete "t9" _ Sample.browser).
  simpl. intros [H|[H|[H|[]]]]; discriminate H.
Defined.

(** X4.  Offline, when the stored identifiers are pairwise distinct they stay
    so after adding under an identifier not yet stored, after any deletion,
    and after any update whose data carries no identifier (which keeps the
    identifiers as they are). *)
Theorem distinct_ids_kept (st : Store.LocalStorage) :
  List.NoDup (map id (Store.savedTransactions st)) ->
  (forall uuid data,
      ~ In uuid (map id (Store.savedTransactions st)) ->
      List.NoDup (map id (Store.savedTransactions (snd (Store.addTransaction uuid data st)))))
  /\ (forall i,
         List.NoDup (map id (Store.savedTransactions (Store.deleteTransaction i st))))
  /\ (forall i data,
         Store.p_id data = None ->
         map id (Store.savedTransactions (Store.updateTransaction i data st))
         = map id (Store.savedTransactions st)).
Proof.
  intros H. split; [|split].
  - intros uuid data Hfresh. unfold Store.addTransaction, Store.setData.
    cbn [snd Store.savedTransactions Store.pocketbook_data map Store.newItem id].
    constructor; assumption.
  - intros i. unfold Store.deleteTransaction, Store.setData.
    cbn [Store.savedTransactions Store.pocketbook_data].
    apply NoDup_ids_filter, H.
  - intros i data Hid. unfold Store.updateTransaction, Store.setData.
    cbn [Store.savedTransactions Store.pocketbook_data].
    apply ids_overlay, Hid.
Qed.

Lemma distinct_ids_kept_witness :
  List.NoDup (map id (Store.savedTransactions (Store.deleteTransaction "t2" Sample.browser)))
  /\ map id (Store.savedTransactions (Store.updateTransaction "t2" Sample.dinner Sample.browser))
     = ["t1"; "t2"; "t3"].
Proof.
  assert (N : List.NoDup (map id (Store.savedTransactions Sample.browser))).
  { simpl. repeat constructor; simpl; intuition discriminate. }
  destruct (distinct_ids_kept Sample.browser N) as (_ & D & U).
  split; [apply D | apply U; reflexivity].
Defined.

(** X5.  Offline, a profile that was registered can log in under its name
    with any password, and a reload finds the session again; after
    [logoutUser] the reload finds no session and no identifier logs in. *)
Theorem register_login_logout (profile : UserProfile) (st : Store.LocalStorage) :
  let st' := snd (Store.registerUser profile st) in
  (forall password, Store.loginUser (name profile) password st' = Store.Resolved profile)
  /\ Store.subscribeToAuth st' = Some profile
  /\ Store.subscribeToAuth (Store.logoutUser st') = None
  /\ (forall emailOrName password,
         exists message,
           Store.loginUser emailOrName password (Store.logoutUser st')
           = Store.Thrown message).
Proof.
  cbn zeta. unfold Store.registerUser, Store.loginUser, Store.logoutUser,
    Store.subscribeToAuth, Store.setUser.
  cbn [snd Store.pocketbook_user]. rewrite String.eqb_refl.
  repeat split. intros ? ?. eexists; reflexivity.
Qed.

(** ** More on the dashboard *)

Section Dashboard.

Variable weekdayShort : string -> string.


Lemma sumOf_nonneg (P : Transaction -> Prop) `{!forall t, Decision (P t)}
    (l : list Transaction) :
  Spec.nonNegative l -> (0 <= Spec.sumOf P l)%Q.
Proof.
  induction 1 as [|t l Ht _ IH]; simpl.
  - apply Qle_refl.
  - destruct (decide (P t)); lra.
Qed.

Lemma sumOf_mono (P R : Transaction -> Prop) `{!forall t, Decision (P t)}
    `{!forall t, Decision (R t)} (l : list Transaction) :
  (forall t, P t -> R t) ->
  Spec.nonNegative l -> (Spec.sumOf P l <= Spec.sumOf R l)%Q.
Proof.
  intros HPR. induction 1 as [|t l Ht _ IH]; simpl.
  - apply Qle_refl.
  - destruct (decide (P t)) as [p|], (decide (R t)) as [|r]; try lra.
    exfalso. apply r, HPR, p.
Qed.

Lemma sum_kind (k : TransactionType) (l : list Transaction) :
  (App.sum (List.filter (App.isType k) l) == Spec.sumOf (Spec.ofKind k) l)%Q.
Proof. apply sum_filter_spec. intros t. apply isType_spec. Qed.

Lemma sum_day (d : string) (l : list Transaction) :
  (App.sum (List.filter
              (fun t => (String.eqb (date t) d && App.isType EXPENSE t)%bool) l)
   == Spec.sumOf (Spec.expenseOn d) l)%Q.
Proof. apply sum_filter_spec. intros t. apply expenseOn_spec. Qed.



(** X8.  When no amount is negative, the totals are not negative, the balance
    lies between minus the total expense and the total income, and no bucket
    of the week is negative or exceeds the total expense. *)
Theorem stats_bounds (now : Z) (l : list Transaction) :
  Spec.nonNegative l ->
  let s := App.stats weekdayShort now l in
  (0 <= totalIncome s)%Q
  /\ (0 <= totalExpense s)%Q
  /\ (- totalExpense s <= totalBalance s <= totalIncome s)%Q
  /\ Forall (fun b => 0 <= bucket_amount b <= totalExpense s)%Q (weeklySpending s).
Proof.
  intros Hl. cbn zeta. unfold App.stats.
  cbn [totalIncome totalExpense totalBalance weeklySpending].
  pose proof (sumOf_nonneg (Spec.ofKind INCOME) l Hl) as I.
  pose proof (sumOf_nonneg (Spec.ofKind EXPENSE) l Hl) as E.
  rewrite <- sum_kind in I, E.
  split; [exact I|]. split; [exact E|]. split; [split; lra|].
  induction (App.last7Days now) as [|d ds IH]; simpl; constructor; [|exact IH].
  cbn [bucket_amount]. rewrite sum_day, sum_kind. split.
  - apply sumOf_nonneg, Hl.
  - apply sumOf_mono; [|exact Hl]. intros t [Ht _]. exact Ht.
Qed.

End Dashboard.


Lemma stats_bounds_witness :
  (0 <= totalExpense (App.stats (fun d => d) 1709251200000 Sample.lunches))%Q
  /\ Forall (fun b => 0 <= bucket_amount b
                      <= totalExpense (App.stats (fun d => d) 1709251200000 Sample.lunches))%Q
            (weeklySpending (App.stats (fun d => d) 1709251200000 Sample.lunches)).
Proof.
  destruct (stats_bounds (fun d => d) 1709251200000 Sample.lunches) as (_ & E & _ & B).
  - unfold Spec.nonNegative, Sample.lunches.
    repeat constructor; vm_compute; discriminate.
  - split; [exact E | exact B].
Defined.

(** ** The screen and the store together *)

Section Screen.

Lemma spread_asPartial (u : Transaction) (data : Store.EntryData) :
  Store.spread u (App.asPartial data) = Store.newItem (id u) data.
Proof. reflexivity. Qed.

Lemma find_present (i : string) (t : Transaction) (l : list Transaction) :
  In t l -> id t = i ->
  exists t', find (fun tr => String.eqb (id tr) i) l = Some t' /\ id t' = i.
Proof.
  intros Hin Hid.
  destruct (find (fun tr => String.eqb (id tr) i) l) as [t'|] eqn:F.
  - exists t'. split; [reflexivity|]. apply find_some in F. destruct F as [_ F].
    apply String.eqb_eq, F.
  - exfalso. pose proof (find_none _ _ F t Hin) as N. cbn beta in N.
    apply String.eqb_neq in N. contradiction.
Qed.

Lemma rowClick_selects (t : Transaction) (s : App.State) :
  JS.truthy (id t) = true ->
  App.selectedId s <> Some (id t) ->
  App.selected (App.rowClick t s) = Some (id t).
Proof.
  intros Ht Hs. unfold App.rowClick, App.selected, App.select.
  cbn [App.selectedId].
  assert (E : Store.optionalIs (App.selectedId s) (id t) = false).
  { unfold Store.optionalIs. destruct (App.selectedId s) as [i|]; [|reflexivity].
    apply String.eqb_neq. intros ->. apply Hs. reflexivity. }
  rewrite E, Ht. reflexivity.
Qed.

Lemma editClick_opens (t : Transaction) (sc : App.Screen) :
  In t (App.transactions (App.state sc)) ->
  JS.truthy (id t) = true ->
  App.selectedId (App.state sc) <> Some (id t) ->
  exists t',
    id t' = id t
    /\ App.editClick (App.withState (App.rowClick t) sc)
       = App.handleEditClick t' (App.withState (App.rowClick t) sc).
Proof.
  intros Hin Ht Hs. unfold App.editClick.
  unfold App.withState at 1 2. cbn [App.state].
  rewrite (rowClick_selects t (App.state sc) Ht Hs).
  unfold App.rowClick at 1, App.select at 1. cbn [App.transactions].
  destruct (find_present (id t) t _ Hin eq_refl) as (t' & F & Hid).
  rewrite F. exists t'. split; [exact Hid | reflexivity].
Qed.

End Screen.

(** X9.  While the screen's list is the stored list, it still is after
    saving an entry (new or edited) and after a confirmed deletion: the
    screen re-applies offline exactly what the store did. *)
Theorem mirror_kept (s : App.State) :
  Spec.mirrors s ->
  (forall uuid data, Spec.mirrors (App.handleSaveTransaction uuid data s))
  /\ Spec.mirrors (App.confirmDelete s).
Proof.
  unfold Spec.mirrors. intros H. split.
  - intros uuid data. unfold App.handleSaveTransaction.
    destruct (App.editingTransaction s) as [e|].
    + cbn [App.transactions App.storage]. unfold Store.updateTransaction, Store.setData.
      cbn [Store.savedTransactions Store.pocketbook_data]. rewrite H. reflexivity.
    + unfold Store.addTransaction, Store.setData.
      cbn [App.transactions App.storage Store.savedTransactions Store.pocketbook_data].
      rewrite H. reflexivity.
  - unfold App.confirmDelete. destruct (App.deleteId s) as [i|]; [|exact H].
    destruct (JS.truthy i); [|exact H].
    cbn [App.transactions App.storage]. unfold Store.deleteTransaction, Store.setData.
    cbn [Store.savedTransactions Store.pocketbook_data]. rewrite H. reflexivity.
Qed.

Lemma mirror_kept_witness :
  Spec.mirrors
    (App.handleSaveTransaction "id-1"
       {| Store.entry_description := "Tea"; Store.entry_amount := 3%Q;
          Store.entry_type := EXPENSE; Store.entry_date := "2024-03-02" |}
       Sample.started).
Proof.
  destruct (mirror_kept Sample.started) as [H _]; [reflexivity | apply H].
Defined.

(** X10.  Logging in and updating the profile show exactly the stored
    transactions.  Logging out empties the screen's list but not the
    storage: the next profile that logs in on this browser sees the
    transactions that were stored before. *)
Theorem session_shows_stored (profile : UserProfile) (sc : App.Screen) :
  Spec.mirrors (App.state (App.handleLogin profile sc))
  /\ Spec.mirrors (App.state (App.handleUpdateUser profile sc))
  /\ App.transactions (App.state (App.handleLogout sc)) = []
  /\ App.user (App.handleLogout sc) = None
  /\ App.transactions (App.state (App.handleLogin profile (App.handleLogout sc)))
     = Store.savedTransactions (App.storage (App.state sc)).
Proof.
  repeat split.
Qed.

(** X11.  Selecting a row, pressing Delete and confirming removes every
    transaction with that row's identifier, and nothing else, from the screen
    and from the storage alike, and clears the selection; pressing Cancel
    instead leaves list and storage as they were. *)
Theorem delete_flow (t : Transaction) (s : App.State) :
  Spec.mirrors s ->
  JS.truthy (id t) = true ->
  App.selectedId s <> Some (id t) ->
  let asked := App.deleteClick (App.rowClick t s) in
  let s' := App.confirmDelete asked in
  App.deleteId asked = Some (id t)
  /\ ~ In (id t) (map id (App.transactions s'))
  /\ sublist (App.transactions s') (App.transactions s)
  /\ Forall (fun u => id u = id t \/ In u (App.transactions s')) (App.transactions s)
  /\ Spec.mirrors s'
  /\ App.selectedId s' = None /\ App.deleteId s' = None
  /\ App.transactions (App.cancelDelete asked) = App.transactions s
  /\ App.storage (App.cancelDelete asked) = App.storage s.
Proof.
  intros Hm Ht Hs. cbn zeta.
  unfold App.deleteClick. rewrite (rowClick_selects t s Ht Hs).
  unfold App.handleDeleteClick, App.confirmDelete, App.cancelDelete.
  cbn [App.deleteId App.transactions App.storage App.selectedId App.rowClick App.select].
  rewrite Ht. cbn [App.deleteId App.transactions App.storage App.selectedId].
  unfold App.rowClick, App.select. cbn [App.transactions App.storage].
  split; [reflexivity|]. split; [apply ids_filter_absent|].
  split; [apply filter_sublist|]. split.
  { apply List.Forall_forall. intros u Hu.
    destruct (String.eqb_spec (id u) (id t)) as [E|E]; [left; exact E|right].
    apply filter_In. split; [exact Hu|]. apply negb_true_iff, String.eqb_neq, E. }
  split.
  { unfold Spec.mirrors. cbn [App.transactions App.storage].
    unfold Store.deleteTransaction, Store.setData.
    cbn [Store.savedTransactions Store.pocketbook_data]. rewrite Hm. reflexivity. }
  repeat split.
Qed.

Lemma delete_flow_witness :
  let tea := {| Store.entry_description := "Tea"; Store.entry_amount := 3%Q;
                Store.entry_type := EXPENSE; Store.entry_date := "2024-03-02" |} in
  let s := App.handleSaveTransaction "id-1" tea Sample.started in
  ~ In "id-1"
      (map id (App.transactions
                 (App.confirmDelete
                    (App.deleteClick (App.rowClick (Store.newItem "id-1" tea) s))))).
Proof.
  cbn zeta.
  match goal with
  | |- ~ In _ (map id (App.transactions
                         (App.confirmDelete (App.deleteClick (App.rowClick ?t ?s))))) =>
      destruct (delete_flow t s) as (_ & H & _);
      [reflexivity | reflexivity | discriminate | exact H]
  end.
Defined.

(** X12.  Selecting a row, pressing Edit and submitting the form overlays the
    entry on every transaction with that row's identifier (the identifier is
    kept) and leaves the others and the order alone, on the screen and in the
    storage alike; selection and editing state are cleared and the modal is
    closed. *)
Theorem edit_flow (t : Transaction) (uuid : string) (data : Store.EntryData)
    (sc : App.Screen) :
  Spec.mirrors (App.state sc) ->
  In t (App.transactions (App.state sc)) ->
  JS.truthy (id t) = true ->
  App.selectedId (App.state sc) <> Some (id t) ->
  let opened := App.editClick (App.withState (App.rowClick t) sc) in
  let sc' := App.closeModal (App.withState (App.handleSaveTransaction uuid data) opened) in
  App.isModalOpen opened = true
  /\ (exists t', App.editingTransaction (App.state opened) = Some t' /\ id t' = id t)
  /\ Forall2 (fun u u' => (id u <> id t -> u' = u)
                          /\ (id u = id t -> u' = Store.newItem (id t) data))
             (App.transactions (App.state sc)) (App.transactions (App.state sc'))
  /\ Spec.mirrors (App.state sc')
  /\ App.editingTransaction (App.state sc') = None
  /\ App.selectedId (App.state sc') = None
  /\ App.isModalOpen sc' = false.
Proof.
  intros Hm Hin Ht Hs. cbn zeta.
  destruct (editClick_opens t sc Hin Ht Hs) as (t' & Hid & ->).
  unfold App.handleEditClick, App.closeModal, App.edit, App.withState.
  cbn [App.state App.isModalOpen App.user App.editingTransaction App.transactions
       App.selectedId App.deleteId App.storage].
  unfold App.handleSaveTransaction.
  cbn [App.state App.isModalOpen App.user App.editingTransaction App.transactions
       App.selectedId App.deleteId App.storage].
  unfold App.rowClick, App.select. cbn [App.transactions App.storage].
  rewrite Hid.
  split; [reflexivity|]. split; [exists t'; split; [reflexivity | exact Hid]|].
  split.
  { clear Hin.
    induction (App.transactions (App.state sc)) as [|u l IH]; simpl; constructor.
    - rewrite spread_asPartial.
      destruct (String.eqb_spec (id u) (id t)) as [E|E]; split; intros H;
        try contradiction; try reflexivity. rewrite E. reflexivity.
    - apply IH. }
  split.
  { unfold Spec.mirrors. cbn [App.transactions App.storage].
    unfold Store.updateTransaction, Store.setData.
    cbn [Store.savedTransactions Store.pocketbook_data]. rewrite Hm. reflexivity. }
  repeat split.
Qed.

Lemma edit_flow_witness :
  let sc := {| App.state :=
                 {| App.transactions := Sample.lunches; App.editingTransaction := None;
                    App.selectedId := None; App.deleteId := None;
                    App.storage := Sample.browser |};
               App.user := Some Sample.ann; App.isModalOpen := false |} in
  let data := {| Store.entry_description := "Dinner"; Store.entry_amount := 45%Q;
                 Store.entry_type := EXPENSE; Store.entry_date := "2024-03-02" |} in
  Spec.mirrors
    (App.state
       (App.closeModal
          (App.withState (App.handleSaveTransaction "unused" data)
             (App.editClick (App.withState (App.rowClick (Sample.expense "t2" "Lunch" 30)) sc))))).
Proof.
  cbn zeta.
  match goal with
  | |- Spec.mirrors (App.state (App.closeModal (App.withState
         (App.handleSaveTransaction ?u ?d) (App.editClick (App.withState (App.rowClick ?t) ?sc))))) =>
      destruct (edit_flow t u d sc) as (_ & _ & _ & H & _);
      [reflexivity | right; left; reflexivity | reflexivity | discriminate | exact H]
  end.
Defined.

(** ** More on registration and login *)

Section Validation.

Lemma truthy_spec (s : string) : JS.truthy s = true <-> s <> "".
Proof.
  unfold JS.truthy. rewrite negb_true_iff. apply String.eqb_neq.
Qed.

Lemma length_pos (s : string) : (0 <? String.length s)%nat = true <-> s <> "".
Proof.
  destruct s; simpl; split; intros H; try discriminate; try reflexivity.
  contradiction.
Qed.

Lemma parseInt_nonempty (s : string) (n : Z) : JS.parseInt s = Some n -> s <> "".
Proof. intros H ->. discriminate H. Qed.

Lemma trim_nonempty (s : string) : JS.trim s <> "" -> s <> "".
Proof. intros H ->. apply H. reflexivity. Qed.

Lemma validate_name (f : AuthScreen.Form) :
  AuthScreen.validate f !! "name" = None -> JS.trim (AuthScreen.name f) <> "".
Proof.
  unfold AuthScreen.validate. cbn zeta.
  destruct (JS.truthy (JS.trim (AuthScreen.name f))) eqn:T.
  - intros _. apply truthy_spec, T.
  - cbn [negb]. repeat case_match; intros ?; simplify_map_eq.
Qed.

Lemma validate_password (f : AuthScreen.Form) :
  AuthScreen.validate f !! "password" = None ->
  (6 <= String.length (AuthScreen.password f))%nat.
Proof.
  unfold AuthScreen.validate. cbn zeta.
  destruct (JS.truthy (AuthScreen.password f)) eqn:T; cbn [negb].
  - destruct (String.length (AuthScreen.password f) <? 6)%nat eqn:L.
    + repeat case_match; intros ?; simplify_map_eq.
    + intros _. apply Nat.ltb_ge, L.
  - repeat case_match; intros ?; simplify_map_eq.
Qed.

Lemma validate_guardian (f : AuthScreen.Form) (n : Z) :
  JS.parseInt (AuthScreen.ageInput f) = Some n ->
  n <= 17 ->
  AuthScreen.validate f !! "guardianSection" = None ->
  AuthScreen.validate f !! "guardianEmail" = None ->
  (JS.trim (AuthScreen.guardianEmail f) <> ""
   \/ JS.trim (AuthScreen.guardianPhone f) <> "")
  /\ (JS.trim (AuthScreen.guardianEmail f) <> "" ->
      AuthScreen.emailRegex_test (AuthScreen.guardianEmail f) = true).
Proof.
  intros P Hn. unfold AuthScreen.validate. cbn zeta. rewrite P.
  unfold AuthScreen.isUnderage. apply Z.leb_le in Hn. rewrite Hn.
  destruct (0 <? String.length (JS.trim (AuthScreen.guardianEmail f)))%nat eqn:E;
    destruct (0 <? String.length (JS.trim (AuthScreen.guardianPhone f)))%nat eqn:Ph;
    destruct (AuthScreen.emailRegex_test (AuthScreen.guardianEmail f)) eqn:R;
    cbn [negb andb];
    try (intros G1 G2; exfalso; revert G1 G2;
         repeat case_match; intros ? ?; simplify_map_eq; fail);
    intros _ _; rewrite <- ?length_pos, ?E, ?Ph; split; auto;
    intros D; try discriminate D.
Qed.

(** Validation leaves no error exactly on an acceptable form. *)
Lemma validate_empty (f : AuthScreen.Form) :
  AuthScreen.validate f = ∅ <-> Spec.acceptable f.
Proof.
  split.
  - intros V. unfold Spec.acceptable.
    split; [apply validate_name; rewrite V; apply lookup_empty|].
    split; [apply validate_password; rewrite V; apply lookup_empty|].
    destruct (validate_age_number f) as (n & P & Hn); [rewrite V; apply lookup_empty|].
    exists n. split; [exact P|]. split; [exact Hn|].
    intros U. apply (validate_guardian f n P U); rewrite V; apply lookup_empty.
  - intros (Hname & Hpw & n & P & Hn & Hg).
    unfold AuthScreen.validate. cbn zeta.
    apply truthy_spec in Hname. rewrite Hname. cbn [negb].
    assert (Tp : JS.truthy (AuthScreen.password f) = true).
    { apply truthy_spec. intros E. rewrite E in Hpw. simpl in Hpw. lia. }
    rewrite Tp. cbn [negb].
    apply Nat.ltb_ge in Hpw. rewrite Hpw.
    assert (Ta : JS.truthy (AuthScreen.ageInput f) = true).
    { apply truthy_spec. eapply parseInt_nonempty, P. }
    rewrite Ta, P. cbn [negb].
    assert (R : ((n <? 5) || (100 <? n))%bool = false).
    { apply orb_false_iff. split; apply Z.ltb_ge; lia. }
    rewrite R. unfold AuthScreen.isUnderage.
    destruct (n <=? 17) eqn:U; [|reflexivity].
    apply Z.leb_le in U. destruct (Hg U) as [Hany Hre].
    destruct (0 <? String.length (JS.trim (AuthScreen.guardianEmail f)))%nat eqn:E.
    + apply length_pos in E. rewrite (Hre E). reflexivity.
    + destruct (0 <? String.length (JS.trim (AuthScreen.guardianPhone f)))%nat eqn:Ph;
        [reflexivity|].
      exfalso. destruct Hany as [H|H]; apply length_pos in H; congruence.
Qed.

(** [registerUser] is called only in registration mode, on a form that
    validation passed, with the profile built from the form. *)
Lemma registered_inv (displayId : string) (f : AuthScreen.Form)
    (st : Store.LocalStorage) (profile : UserProfile) :
  In (AuthScreen.call_registerUser profile)
     (fst (AuthScreen.handleSubmit displayId f st)) ->
  AuthScreen.isLoginMode f = false
  /\ AuthScreen.validate f = ∅
  /\ profile = AuthScreen.userProfile displayId f.
Proof.
  unfold AuthScreen.handleSubmit.
  destruct (AuthScreen.isLoginMode f).
  { repeat case_match; simpl; intros ?; intuition discriminate. }
  destruct (0 <? size (AuthScreen.validate f))%nat eqn:V.
  { simpl; intros ?; intuition discriminate. }
  apply no_errors in V. simpl. intros [H|[H|[H|[]]]]; try discriminate H.
  injection H as <-. repeat split. exact V.
Qed.

End Validation.

(** X13.  A registration calls [registerUser] exactly when the form is
    acceptable: a name that is not blank, a password of at least six
    characters, an age that reads as a number from 5 to 100 and, up to the
    age of 17, a guardian email or phone that is not blank, the email (when
    not blank) matching the pattern.  The profile registered is then the one
    built from the form. *)
Theorem registration_accepts (displayId : string) (f : AuthScreen.Form)
    (st : Store.LocalStorage) :
  AuthScreen.isLoginMode f = false ->
  ((exists profile,
       In (AuthScreen.call_registerUser profile)
          (fst (AuthScreen.handleSubmit displayId f st)))
   <-> Spec.acceptable f)
  /\ (forall profile,
         In (AuthScreen.call_registerUser profile)
            (fst (AuthScreen.handleSubmit displayId f st)) ->
         profile = AuthScreen.userProfile displayId f).
Proof.
  intros Hmode. unfold AuthScreen.handleSubmit. rewrite Hmode.
  destruct (0 <? size (AuthScreen.validate f))%nat eqn:V.
  - split.
    + split.
      * intros (p & [H|[H|[]]]); discriminate H.
      * intros A. apply validate_empty in A. rewrite A in V. discriminate V.
    + intros p [H|[H|[]]]; discriminate H.
  - apply no_errors in V. simpl. split.
    + split; [intros _; apply validate_empty, V|].
      intros _. eexists. right. left. reflexivity.
    + intros p [H|[H|[H|[]]]]; try discriminate H. injection H as <-. reflexivity.
Qed.

Lemma registration_accepts_witness :
  Spec.acceptable (Sample.teen "mum@example.org" "").
Proof.
  destruct (registration_accepts "12345678" (Sample.teen "mum@example.org" "")
              Sample.fresh eq_refl) as [[H _] _].
  apply H. eexists. vm_compute. right. left. reflexivity.
Defined.

(** X14.  After a registration went through, a login on the same browser
    under the registered name, with any non-empty password, hands the
    registered profile to [onLogin] and writes nothing. *)
Theorem register_then_login (displayId displayId' : string) (f f' : AuthScreen.Form)
    (st : Store.LocalStorage) (profile : UserProfile) :
  In (AuthScreen.call_registerUser profile)
     (fst (AuthScreen.handleSubmit displayId f st)) ->
  AuthScreen.isLoginMode f' = true ->
  AuthScreen.name f' = AuthScreen.name f ->
  AuthScreen.password f' <> "" ->
  let st' := snd (AuthScreen.handleSubmit displayId f st) in
  AuthScreen.handleSubmit displayId' f' st'
  = ([AuthScreen.setErrors ∅;
      AuthScreen.call_loginUser (AuthScreen.name f) (AuthScreen.password f');
      AuthScreen.onLogin profile], st').
Proof.
  intros Hreg Hmode' Hname Hpw. cbn zeta.
  destruct (registered_inv displayId f st profile Hreg) as (Hmode & Hacc & ->).
  unfold AuthScreen.handleSubmit at 2 3. rewrite Hmode, Hacc. cbn [size].
  change (0 <? size (∅ : gmap string string))%nat with false.
  cbn [Store.registerUser snd].
  unfold AuthScreen.handleSubmit. rewrite Hmode'.
  apply truthy_spec in Hpw. rewrite Hpw. cbn [negb].
  assert (Tn : JS.truthy (AuthScreen.name f') = true).
  { rewrite Hname. apply truthy_spec, trim_nonempty.
    apply validate_empty in Hacc. apply Hacc. }
  rewrite Tn. cbn [negb].
  unfold Store.loginUser, Store.setUser. cbn [Store.pocketbook_user].
  unfold AuthScreen.userProfile at 1. cbn [name]. rewrite Hname, String.eqb_refl.
  reflexivity.
Qed.

Lemma register_then_login_witness :
  let st' := snd (AuthScreen.handleSubmit "12345678" (Sample.teen "mum@example.org" "")
                    Sample.fresh) in
  let login := {| AuthScreen.isLoginMode := true; AuthScreen.name := "Ann";
                  AuthScreen.email := ""; AuthScreen.password := "x";
                  AuthScreen.ageInput := ""; AuthScreen.guardianEmail := "";
                  AuthScreen.guardianPhone := ""; AuthScreen.reportFrequency := weekly |} in
  AuthScreen.handleSubmit "00000000" login st'
  = ([AuthScreen.setErrors ∅; AuthScreen.call_loginUser "Ann" "x";
      AuthScreen.onLogin
        (AuthScreen.userProfile "12345678" (Sample.teen "mum@example.org" ""))], st').
Proof.
  cbn zeta.
  apply (register_then_login "12345678" "00000000" (Sample.teen "mum@example.org" "")).
  - vm_compute. right. left. reflexivity.
  - reflexivity.
  - reflexivity.
  - discriminate.
Defined.

(** X15.  Whoever [handleSubmit] hands to [onLogin] is the profile the storage
    holds afterwards.  A submission that does not reach [onLogin] leaves the
    storage untouched, and no submission touches the stored transactions. *)
Theorem submit_storage (displayId : string) (f : AuthScreen.Form)
    (st : Store.LocalStorage) :
  let trace := fst (AuthScreen.handleSubmit displayId f st) in
  let st' := snd (AuthScreen.handleSubmit displayId f st) in
  Forall (fun ev => match ev with
                    | AuthScreen.onLogin u => Store.pocketbook_user st' = Some u
                    | _ => True
                    end) trace
  /\ (st' = st \/ exists u, In (AuthScreen.onLogin u) trace)
  /\ Store.savedTransactions st' = Store.savedTransactions st.
Proof.
  cbn zeta. unfold AuthScreen.handleSubmit.
  destruct (AuthScreen.isLoginMode f).
  - destruct (negb (JS.truthy (AuthScreen.password f)));
      [cbn [fst snd]; split; [repeat constructor | split; [left|]; reflexivity]|].
    destruct (negb (JS.truthy (AuthScreen.name f)));
      [cbn [fst snd]; split; [repeat constructor | split; [left|]; reflexivity]|].
    destruct (Store.loginUser (AuthScreen.name f) (AuthScreen.password f) st)
      as [u|m] eqn:L; cbn [fst snd].
    + split; [|split; [left|]; reflexivity]. repeat constructor.
      unfold Store.loginUser in L.
      destruct (Store.pocketbook_user st) as [u'|]; [|discriminate L].
      destruct (_ || _)%bool; [|discriminate L]. injection L as <-. reflexivity.
    + split; [repeat constructor | split; [left|]; reflexivity].
  - destruct (0 <? size (AuthScreen.validate f))%nat; cbn [fst snd Store.registerUser].
    + split; [repeat constructor | split; [left|]; reflexivity].
    + split; [repeat constructor|]. split; [|reflexivity].
      right. eexists. right. right. left. reflexivity.
Qed.

(** ** The guardian email pattern *)

Section EmailPattern.

Lemma dotBeforeEnd_cons (c : ascii) (r : string) :
  AuthScreen.dotBeforeEnd (String c r)
  = if (Ascii.eqb c "." && negb (String.eqb r ""))%bool then true
    else AuthScreen.dotBeforeEnd r.
Proof.
  destruct c as [[|] [|] [|] [|] [|] [|] [|] [|]]; destruct r; reflexivity.
Qed.

Lemma allPlain_app (a b : string) :
  AuthScreen.allPlain (a ++ b) = (AuthScreen.allPlain a && AuthScreen.allPlain b)%bool.
Proof.
  induction a as [|c a IH]; simpl.
  - reflexivity.
  - rewrite IH. apply andb_assoc.
Qed.

Lemma plainChar_not_at (c : ascii) :
  AuthScreen.plainChar c = true -> Ascii.eqb c "@" = false.
Proof.
  unfold AuthScreen.plainChar. rewrite negb_true_iff, orb_false_iff. tauto.
Qed.

Lemma dotBeforeEnd_spec (r : string) :
  AuthScreen.dotBeforeEnd r = true <-> exists b c, r = b ++ "." ++ c /\ c <> "".
Proof.
  split.
  - induction r as [|x r IH]; [discriminate|].
    rewrite dotBeforeEnd_cons.
    destruct (Ascii.eqb_spec x ".") as [->|_]; cbn [andb].
    + destruct (String.eqb_spec r "") as [->|Hr]; cbn [negb].
      * discriminate.
      * intros _. exists "", r. split; [reflexivity | exact Hr].
    + intros H. destruct (IH H) as (b & c & -> & Hc).
      exists (String x b), c. split; [reflexivity | exact Hc].
  - intros (b & c & -> & Hc). induction b as [|x b IH].
    + destruct c as [|y c]; [contradiction | reflexivity].
    + change (String x b ++ "." ++ c) with (String x (b ++ "." ++ c)).
      rewrite dotBeforeEnd_cons, IH. destruct (_ && _)%bool; reflexivity.
Qed.

Lemma afterAt_spec (s r : string) (seen : bool) :
  AuthScreen.afterAt s seen = Some r
  <-> exists a, s = a ++ "@" ++ r
                /\ AuthScreen.allPlain a = true /\ (seen = true \/ a <> "").
Proof.
  split.
  - revert seen. induction s as [|c s IH]; intros seen; simpl; [discriminate|].
    destruct (Ascii.eqb_spec c "@") as [->|_].
    + destruct seen; [|discriminate]. intros H. injection H as <-.
      exists "". split; [reflexivity|]. split; [reflexivity | left; reflexivity].
    + destruct (AuthScreen.plainChar c) eqn:P; [|discriminate].
      intros H. destruct (IH true H) as (a & -> & Ha & _).
      exists (String c a). split; [reflexivity|]. split.
      * simpl. rewrite P, Ha. reflexivity.
      * right. discriminate.
  - intros (a & -> & Ha & Hseen). revert seen Hseen.
    induction a as [|c a IH]; intros seen Hseen.
    + destruct Hseen as [->|H]; [reflexivity | contradiction].
    + simpl in Ha. apply andb_true_iff in Ha. destruct Ha as [Pc Ha].
      change (String c a ++ "@" ++ r) with (String c (a ++ "@" ++ r)).
      simpl. rewrite (plainChar_not_at c Pc), Pc.
      apply IH; [exact Ha | left; reflexivity].
Qed.

End EmailPattern.

(** X16.  The guardian email test accepts exactly the texts of the form
    [a@b.c] in which [a], [b] and [c] are not empty and contain neither white
    space nor [@]. *)
Theorem emailRegex_accepts (s : string) :
  AuthScreen.emailRegex_test s = true
  <-> exists a b c,
        s = a ++ "@" ++ b ++ "." ++ c
        /\ a <> "" /\ b <> "" /\ c <> ""
        /\ AuthScreen.allPlain a = true
        /\ AuthScreen.allPlain b = true
        /\ AuthScreen.allPlain c = true.
Proof.
  unfold AuthScreen.emailRegex_test. split.
  - destruct (AuthScreen.afterAt s false) as [[|x r]|] eqn:A; try discriminate.
    intros H. apply andb_true_iff in H. destruct H as [Hp Hd].
    apply afterAt_spec in A. destruct A as (a & -> & Ha & [F|Hne]); [discriminate F|].
    apply dotBeforeEnd_spec in Hd. destruct Hd as (b & c & -> & Hc).
    change (String x (b ++ "." ++ c)) with (String x b ++ "." ++ c) in Hp.
    rewrite allPlain_app in Hp. apply andb_true_iff in Hp. destruct Hp as [Hb Hc'].
    change ("." ++ c) with (String "." c) in Hc'. simpl in Hc'.
    exists a, (String x b), c. repeat split; try assumption; discriminate.
  - intros (a & b & c & -> & Ha & Hb & Hc & Pa & Pb & Pc).
    assert (A : AuthScreen.afterAt (a ++ "@" ++ b ++ "." ++ c) false = Some (b ++ "." ++ c)).
    { apply afterAt_spec. exists a. split; [reflexivity|]. split; [exact Pa | right; exact Ha]. }
    rewrite A. destruct b as [|x b]; [contradiction|].
    change (String x b ++ "." ++ c) with (String x (b ++ "." ++ c)). cbv iota beta.
    apply andb_true_iff. split.
    + change (String x (b ++ "." ++ c)) with (String x b ++ "." ++ c).
      rewrite allPlain_app, Pb. simpl. exact Pc.
    + apply dotBeforeEnd_spec. exists b, c. split; [reflexivity | exact Hc].
Qed.

(** ** More on the breakdown by description *)

Section Groups.

Import UserProfileModal.

Lemma own_put (acc : Obj) (key k : string) (v : Value) :
  own (put acc key v) k = if String.eqb key k then Some v else own acc k.
Proof.
  induction acc as [|[k' w] acc IH]; simpl.
  - reflexivity.
  - destruct (String.eqb_spec k' key) as [->|Hk]; simpl.
    + destruct (String.eqb key k); reflexivity.
    + rewrite IH. destruct (String.eqb_spec k' k) as [->|Hk'].
      * destruct (String.eqb_spec key k) as [->|_]; [contradiction | reflexivity].
      * reflexivity.
Qed.

Lemma own_None_keys (acc : Obj) (k : string) :
  own acc k = None <-> ~ In k (map fst acc).
Proof.
  induction acc as [|[k' w] acc IH]; simpl.
  - tauto.
  - destruct (String.eqb_spec k' k) as [->|Hk].
    + split; [discriminate | intros H; exfalso; apply H; left; reflexivity].
    + rewrite IH. tauto.
Qed.

Lemma keys_put (acc : Obj) (key : string) (v : Value) :
  map fst (put acc key v)
  = match own acc key with
    | Some _ => map fst acc
    | None => (map fst acc ++ [key])%list
    end.
Proof.
  induction acc as [|[k' w] acc IH]; simpl.
  - reflexivity.
  - destruct (String.eqb k' key); simpl; [reflexivity|].
    rewrite IH. destruct (own acc key); reflexivity.
Qed.

Lemma NoDup_put (acc : Obj) (key : string) (v : Value) :
  List.NoDup (map fst acc) -> List.NoDup (map fst (put acc key v)).
Proof.
  intros H. rewrite keys_put. destruct (own acc key) eqn:O; [exact H|].
  apply own_None_keys in O.
  apply Permutation_NoDup with (l := key :: map fst acc).
  - apply Permutation_cons_append.
  - constructor; assumption.
Qed.

Lemma own_In (o : Obj) (k : string) (v : Value) :
  List.NoDup (map fst o) -> In (k, v) o -> own o k = Some v.
Proof.
  induction o as [|[k' w] o IH]; simpl; intros N H; [contradiction|].
  inversion N as [|? ? Hk N']; subst.
  destruct H as [E|H].
  - injection E as -> ->. rewrite String.eqb_refl. reflexivity.
  - destruct (String.eqb_spec k' k) as [->|_].
    + exfalso. apply Hk. apply in_map_iff. exists (k, v). split; [reflexivity | exact H].
    + apply IH; assumption.
Qed.

Lemma In_own (o : Obj) (k : string) (v : Value) :
  own o k = Some v -> In (k, v) o.
Proof.
  induction o as [|[k' w] o IH]; simpl; [discriminate|].
  destruct (String.eqb_spec k' k) as [->|_].
  - intros E. injection E as ->. left. reflexivity.
  - intros E. right. apply IH, E.
Qed.

Lemma sumOf_snoc (P : Transaction -> Prop) `{!forall t, Decision (P t)}
    (l : list Transaction) (t : Transaction) :
  (Spec.sumOf P (l ++ [t]) == Spec.sumOf P l + (if decide (P t) then amount t else 0))%Q.
Proof.
  induction l as [|u l IH]; simpl.
  - destruct (decide (P t)); ring.
  - destruct (decide (P u)); rewrite IH; ring.
Qed.

Lemma grouped_step (o : Obj) (done : list Transaction) (t : Transaction) :
  inObjectPrototype (JS.trim (description t)) = false ->
  Spec.grouped o done ->
  let key := JS.trim (description t) in
  Spec.grouped (set o key (bump (get o key) (amount t))) (done ++ [t]).
Proof.
  intros Hplain [N G]. cbn zeta. set (key := JS.trim (description t)).
  unfold set. destruct (String.eqb key "__proto__") eqn:E.
  { apply String.eqb_eq in E. fold key in Hplain. rewrite E in Hplain. discriminate. }
  assert (B : exists q, bump (get o key) (amount t) = VNum q
                        /\ (q == match own o key with
                                 | Some v => Spec.num v
                                 | None => 0
                                 end + amount t)%Q).
  { unfold get. fold key in Hplain. rewrite Hplain.
    pose proof (G key) as Gk. destruct (own o key) as [v|].
    - destruct Gk as (q & -> & _). simpl. destruct (Qeq_bool q 0) eqn:Z.
      + apply Qeq_bool_iff in Z. eexists. split; [reflexivity|]. rewrite Z. ring.
      + eexists. split; [reflexivity | reflexivity].
    - eexists. split; [reflexivity | reflexivity]. }
  destruct B as (q' & -> & Hq').
  split; [apply NoDup_put, N|].
  intros k. rewrite own_put. specialize (G k).
  destruct (String.eqb_spec key k) as [<-|Hk].
  - exists q'. split; [reflexivity|]. split.
    + rewrite sumOf_snoc, Hq'. rewrite decide_True by reflexivity.
      destruct (own o key) as [v|].
      * destruct G as (q & -> & Hq & _). simpl. rewrite Hq. reflexivity.
      * assert (Z : (Spec.sumOf (fun u => JS.trim (description u) = key) done == 0)%Q).
        { clear -G. induction G as [|u l Hu _ IH]; simpl; [reflexivity|].
          rewrite decide_False by exact Hu. exact IH. }
        rewrite Z. reflexivity.
    + apply Exists_app. right. constructor. reflexivity.
  - destruct (own o k) as [v|].
    + destruct G as (q & -> & Hq & Hex). exists q. split; [reflexivity|]. split.
      * rewrite sumOf_snoc, decide_False by exact Hk. rewrite Hq. ring.
      * apply Exists_app. left. exact Hex.
    + apply Forall_app. split; [exact G|]. constructor; [exact Hk | constructor].
Qed.

Lemma grouped_fold (l done : list Transaction) (o : Obj) :
  Forall (fun t => inObjectPrototype (JS.trim (description t)) = false) l ->
  Spec.grouped o done ->
  Spec.grouped (fold_left (fun acc t =>
                        let key := JS.trim (description t) in
                        set acc key (bump (get acc key) (amount t))) l o)
          (done ++ l).
Proof.
  revert done o. induction l as [|t l IH]; intros done o Hl G; simpl.
  - rewrite app_nil_r. exact G.
  - inversion Hl; subst.
    replace (done ++ t :: l)%list with ((done ++ [t]) ++ l)%list
      by (rewrite <- app_assoc; reflexivity).
    apply IH; [assumption|]. apply grouped_step; assumption.
Qed.

Lemma grouped_byItem (l : list Transaction) :
  Forall (fun t => inObjectPrototype (JS.trim (description t)) = false) l ->
  Spec.grouped (byItem l) l.
Proof.
  intros Hl. apply (grouped_fold l [] [] Hl).
  split; [constructor|]. intros k. constructor.
Qed.

Lemma byValueDesc_true (x y : Item) :
  Spec.isNum (value x) -> Spec.isNum (value y) ->
  byValueDesc x y = true -> Spec.noLess y x.
Proof.
  unfold byValueDesc, Spec.noLess.
  destruct (value x) as [a|], (value y) as [b|]; simpl; try contradiction.
  intros _ _. destruct (b ?= a)%Q eqn:C; try discriminate.
  intros _. apply Qgt_alt in C. apply Qlt_le_weak, C.
Qed.

Lemma byValueDesc_false (x y : Item) :
  Spec.isNum (value x) -> Spec.isNum (value y) ->
  byValueDesc x y = false -> Spec.noLess x y.
Proof.
  unfold byValueDesc, Spec.noLess.
  destruct (value x) as [a|], (value y) as [b|]; simpl; try contradiction.
  intros _ _ H. apply Qle_alt. intros C. rewrite C in H. discriminate H.
Qed.

Lemma insert_sorted (x : Item) (l : list Item) :
  Spec.isNum (value x) ->
  Forall Spec.isNum (map value l) ->
  StronglySorted Spec.noLess l ->
  StronglySorted Spec.noLess (insert byValueDesc x l).
Proof.
  intros Hx. induction l as [|y l IH]; simpl; intros Hl Hs.
  - repeat constructor.
  - inversion Hl as [|? ? Hy Hl']; subst. inversion Hs as [|? ? Hs' Hle]; subst.
    destruct (byValueDesc x y) eqn:B.
    + constructor; [apply IH; assumption|].
      eapply Permutation_Forall; [symmetry; apply insert_perm|].
      constructor; [apply byValueDesc_true; assumption | exact Hle].
    + pose proof (byValueDesc_false x y Hx Hy B) as Hxy.
      constructor; [exact Hs|]. constructor; [exact Hxy|].
      eapply List.Forall_impl; [|exact Hle]. intros z Hz.
      unfold Spec.noLess in *. lra.
Qed.

(** On numbers the sort yields a list in descending order of value. *)
Lemma sort_sorted (l : list Item) :
  Forall Spec.isNum (map value l) ->
  StronglySorted Spec.noLess (sort byValueDesc l).
Proof.
  induction l as [|x l IH]; simpl; intros Hl.
  - constructor.
  - inversion Hl; subst. apply insert_sorted; [assumption| |apply IH; assumption].
    eapply Permutation_Forall; [symmetry; apply Permutation_map, sort_perm | assumption].
Qed.

Lemma StronglySorted_app {A} (R : A -> A -> Prop) (a b : list A) :
  StronglySorted R (a ++ b) ->
  StronglySorted R a /\ Forall (fun x => Forall (R x) b) a.
Proof.
  induction a as [|x a IH]; simpl; intros H.
  - split; constructor.
  - inversion H as [|? ? Hs Hx]; subst. destruct (IH Hs) as [Sa Fa].
    apply Forall_app in Hx. destruct Hx as [Hxa Hxb].
    split; constructor; assumption.
Qed.

Lemma firstn_topExpenses (transactions : list Transaction) :
  firstn 5 (topExpenses transactions) = firstn 5 (Spec.sortedGroups transactions).
Proof.
  unfold topExpenses. fold (Spec.sortedGroups transactions).
  destruct (5 <? length (Spec.sortedGroups transactions))%nat eqn:L; [|reflexivity].
  apply Nat.ltb_lt in L.
  rewrite firstn_app, firstn_firstn, length_firstn.
  replace (5 - Nat.min 5 (length (Spec.sortedGroups transactions)))%nat with 0%nat by lia.
  rewrite Nat.min_id. cbn [firstn]. apply app_nil_r.
Qed.

Lemma sumOf_ext (P R : Transaction -> Prop) `{!forall t, Decision (P t)}
    `{!forall t, Decision (R t)} (l : list Transaction) :
  (forall t, P t <-> R t) -> Spec.sumOf P l = Spec.sumOf R l.
Proof.
  intros Hiff. induction l as [|t l IH]; simpl; [reflexivity|]. rewrite IH.
  destruct (decide (P t)) as [p|p], (decide (R t)) as [r|r]; try reflexivity; exfalso.
  - apply r, Hiff, p.
  - apply p, Hiff, r.
Qed.

Lemma sumOf_expenses (k : string) (l : list Transaction) :
  Spec.sumOf (fun t => JS.trim (description t) = k) (List.filter (App.isType EXPENSE) l)
  = Spec.groupTotal k l.
Proof.
  unfold Spec.groupTotal. induction l as [|t l IH]; simpl; [reflexivity|].
  destruct (App.isType EXPENSE t) eqn:E; simpl.
  - apply isType_spec in E. rewrite IH.
    destruct (decide (JS.trim (description t) = k)) as [D|D].
    + rewrite decide_True by (split; assumption). reflexivity.
    + rewrite decide_False by (intros [_ H]; contradiction). reflexivity.
  - rewrite IH, decide_False; [reflexivity|].
    intros [H _]. apply isType_spec in H. congruence.
Qed.

(** The sorted groups of a collection with plain descriptions: numbers, in
    descending order, under distinct names, each the total of its group; and
    every expense's group is among them. *)
Lemma sortedGroups_plain (transactions : list Transaction) :
  Spec.plainDescriptions transactions ->
  let groups := Spec.sortedGroups transactions in
  StronglySorted Spec.noLess groups
  /\ List.NoDup (map name groups)
  /\ Forall (fun i => exists q, value i = VNum q
                                /\ (q == Spec.groupTotal (name i) transactions)%Q
                                /\ Exists (Spec.describedAs (name i)) transactions) groups
  /\ Forall (fun t => type t = EXPENSE ->
                      exists i, In i groups /\ name i = JS.trim (description t)
                                /\ (Spec.num (value i)
                                    == Spec.groupTotal (JS.trim (description t)) transactions)%Q)
            transactions.
Proof.
  intros Hplain. cbn zeta. unfold Spec.sortedGroups.
  set (expenses := List.filter (App.isType EXPENSE) transactions).
  assert (Hexp : Forall (fun t => inObjectPrototype (JS.trim (description t)) = false)
                        expenses).
  { apply List.Forall_forall. intros t Ht. apply filter_In in Ht. destruct Ht as [Ht Hk].
    unfold Spec.plainDescriptions in Hplain. rewrite List.Forall_forall in Hplain.
    apply Hplain; [exact Ht | apply isType_spec, Hk]. }
  destruct (grouped_byItem expenses Hexp) as [N G].
  set (o := byItem expenses) in *.
  set (items := map (fun e => {| name := fst e; value := snd e |}) (entries o)).
  assert (Pn : Permutation (map name items) (map fst o)).
  { unfold items. rewrite map_map. cbn [name]. apply Permutation_map, entries_perm. }
  assert (Hin : forall i, In i items -> own o (name i) = Some (value i)).
  { intros i Hi. unfold items in Hi. apply in_map_iff in Hi.
    destruct Hi as ([k v] & <- & He). cbn [name value fst snd].
    apply own_In; [exact N|]. eapply Permutation_in; [apply entries_perm | exact He]. }
  assert (Hnum : Forall Spec.isNum (map value items)).
  { apply List.Forall_forall. intros v Hv. apply in_map_iff in Hv.
    destruct Hv as (i & <- & Hi). specialize (Hin i Hi). specialize (G (name i)).
    rewrite Hin in G. destruct G as (q & -> & _). exact I. }
  assert (Ps : Permutation (sort byValueDesc items) items) by apply sort_perm.
  split; [apply sort_sorted, Hnum|]. split.
  { eapply Permutation_NoDup; [|exact N]. symmetry.
    etransitivity; [apply Permutation_map, Ps | exact Pn]. }
  split.
  - apply List.Forall_forall. intros i Hi.
    apply (Permutation_in _ Ps) in Hi. specialize (Hin i Hi). specialize (G (name i)).
    rewrite Hin in G. destruct G as (q & Hv & Hq & Hex).
    exists q. split; [exact Hv|]. split.
    + rewrite Hq. unfold expenses. rewrite sumOf_expenses. reflexivity.
    + unfold expenses in Hex. apply List.Exists_exists in Hex.
      destruct Hex as (t & Ht & Hk). apply filter_In in Ht. destruct Ht as [Ht Hk'].
      apply List.Exists_exists. exists t. split; [exact Ht|].
      split; [apply isType_spec, Hk' | exact Hk].
  - apply List.Forall_forall. intros t Ht Hkind.
    specialize (G (JS.trim (description t))).
    destruct (own o (JS.trim (description t))) as [v|] eqn:O.
    + destruct G as (q & -> & Hq & _).
      exists {| name := JS.trim (description t); value := VNum q |}.
      split; [|split; [reflexivity|]].
      * apply (Permutation_in _ (Permutation_sym Ps)). unfold items.
        apply in_map_iff. exists (JS.trim (description t), VNum q).
        split; [reflexivity|].
        eapply Permutation_in; [symmetry; apply entries_perm | apply In_own, O].
      * cbn [value Spec.num]. rewrite Hq. unfold expenses. rewrite sumOf_expenses.
        reflexivity.
    + exfalso. rewrite List.Forall_forall in G. apply (G t); [|reflexivity].
      unfold expenses. apply filter_In. split; [exact Ht | apply isType_spec, Hkind].
Qed.

End Groups.

(** X17.  When no expense is described by a property name of
    [Object.prototype], the listed groups (the first five entries) carry
    distinct names, and the value of each is the sum of the amounts of the
    expenses whose trimmed description is that name, of which there is at
    least one. *)
Theorem topExpenses_groups (transactions : list Transaction) :
  Spec.plainDescriptions transactions ->
  let top := firstn 5 (UserProfileModal.report_topExpenses
                         (UserProfileModal.reportData transactions)) in
  List.NoDup (map UserProfileModal.name top)
  /\ Forall (fun i => exists q,
                 UserProfileModal.value i = UserProfileModal.VNum q
                 /\ (q == Spec.groupTotal (UserProfileModal.name i) transactions)%Q
                 /\ Exists (Spec.describedAs (UserProfileModal.name i)) transactions)
            top.
Proof.
  intros Hplain. cbn zeta. unfold UserProfileModal.reportData.
  cbn [UserProfileModal.report_topExpenses]. rewrite firstn_topExpenses.
  destruct (sortedGroups_plain transactions Hplain) as (_ & N & G & _).
  rewrite <- (firstn_skipn 5 (Spec.sortedGroups transactions)) in N, G.
  rewrite map_app in N. apply NoDup_app_remove_r in N.
  apply Forall_app in G. destruct G as [G _].
  split; assumption.
Qed.

Lemma topExpenses_groups_witness :
  List.NoDup (map UserProfileModal.name
                (firstn 5 (UserProfileModal.report_topExpenses
                             (UserProfileModal.reportData Sample.lunches)))).
Proof.
  destruct (topExpenses_groups Sample.lunches) as [N _].
  - unfold Spec.plainDescriptions, Sample.lunches. repeat constructor.
  - exact N.
Defined.

(** X18.  Under the same condition the listed groups are in descending order
    of value, and they are the largest: the group of any expense is listed,
    or its total is at most the value of every listed group. *)
Theorem topExpenses_ranked (transactions : list Transaction) :
  Spec.plainDescriptions transactions ->
  let top := firstn 5 (UserProfileModal.report_topExpenses
                         (UserProfileModal.reportData transactions)) in
  StronglySorted Spec.noLess top
  /\ Forall (fun t =>
               type t = EXPENSE ->
               In (JS.trim (description t)) (map UserProfileModal.name top)
               \/ Forall (fun i => (Spec.groupTotal (JS.trim (description t)) transactions
                                    <= Spec.num (UserProfileModal.value i))%Q) top)
            transactions.
Proof.
  intros Hplain. cbn zeta. unfold UserProfileModal.reportData.
  cbn [UserProfileModal.report_topExpenses]. rewrite firstn_topExpenses.
  destruct (sortedGroups_plain transactions Hplain) as (S & _ & _ & M).
  rewrite <- (firstn_skipn 5 (Spec.sortedGroups transactions)) in S.
  apply StronglySorted_app in S. destruct S as [S R].
  split; [exact S|].
  eapply List.Forall_impl; [|exact M]. intros t Ht Hkind.
  destruct (Ht Hkind) as (i & Hi & Hname & Hval).
  rewrite <- (firstn_skipn 5 (Spec.sortedGroups transactions)) in Hi.
  apply in_app_or in Hi. destruct Hi as [Hi|Hi].
  - left. rewrite <- Hname. apply in_map, Hi.
  - right. eapply List.Forall_impl; [|exact R]. intros j Hj.
    rewrite List.Forall_forall in Hj. specialize (Hj i Hi).
    unfold Spec.noLess in Hj. rewrite <- Hval. exact Hj.
Qed.

Lemma topExpenses_ranked_witness :
  StronglySorted Spec.noLess
    (firstn 5 (UserProfileModal.report_topExpenses
                 (UserProfileModal.reportData Sample.lunches))).
Proof.
  destruct (topExpenses_ranked Sample.lunches) as [S _].
  - unfold Spec.plainDescriptions, Sample.lunches. repeat constructor.
  - exact S.
Defined.



(** ** The text parser *)

(** X20.  The parser gives no result exactly when the reply has no
    description, an empty one, or no amount.  A result carries the reply's
    description (never empty) and amount; its kind is Income exactly when the
    reply's type is the text "income" and Expense for anything else, also for
    a missing type; an empty date text becomes no date. *)
Theorem parseTransactionFromText_result (json : Gemini.Reply) :
  (Gemini.parseTransactionFromText json = None
   <-> Gemini.description json = None \/ Gemini.description json = Some ""
       \/ Gemini.amount json = None)
  /\ forall p,
      Gemini.parseTransactionFromText json = Some p ->
      Gemini.description json = Some (parsed_description p)
      /\ parsed_description p <> ""
      /\ Gemini.amount json = Some (parsed_amount p)
      /\ (parsed_type p = INCOME <-> Gemini.type json = Some "income")
      /\ (parsed_type p = EXPENSE <-> Gemini.type json <> Some "income")
      /\ parsed_date p <> Some ""
      /\ (parsed_date p = Gemini.date json \/ Gemini.date json = Some "").
Proof.
  unfold Gemini.parseTransactionFromText.
  destruct (Gemini.description json) as [d|]; cycle 1.
  { split; [split; [intros _; left; reflexivity | reflexivity] | intros p H; discriminate H]. }
  destruct (Gemini.amount json) as [a|]; cycle 1.
  { split; [split; [intros _; right; right; reflexivity | reflexivity]
           | intros p H; discriminate H]. }
  destruct (JS.truthy d) eqn:T.
  - apply truthy_spec in T. split.
    + split; [discriminate|]. intros [H|[H|H]]; try discriminate H.
      injection H as ->. contradiction.
    + intros p H. injection H as <-.
      cbn [parsed_description parsed_amount parsed_type parsed_date].
      split; [reflexivity|]. split; [exact T|]. split; [reflexivity|].
      assert (K : Store.optionalIs (Gemini.type json) "income" = true
                  <-> Gemini.type json = Some "income").
      { unfold Store.optionalIs. destruct (Gemini.type json) as [k|].
        - rewrite String.eqb_eq. split; congruence.
        - split; discriminate. }
      destruct (Store.optionalIs (Gemini.type json) "income").
      * split; [split; [intros _; apply K; reflexivity | reflexivity]|].
        split; [split; [discriminate | intros N; exfalso; apply N, K; reflexivity]|].
        destruct (Gemini.date json) as [s|]; [|split; [discriminate | left; reflexivity]].
        destruct (JS.truthy s) eqn:Ts.
        -- apply truthy_spec in Ts. split; [congruence | left; reflexivity].
        -- split; [discriminate|]. right. f_equal.
           unfold JS.truthy in Ts. apply negb_false_iff, String.eqb_eq in Ts. exact Ts.
      * split; [split; [discriminate | intros E; apply K in E; discriminate E]|].
        split; [split; [intros _ E; apply K in E; discriminate E | reflexivity]|].
        destruct (Gemini.date json) as [s|]; [|split; [discriminate | left; reflexivity]].
        destruct (JS.truthy s) eqn:Ts.
        -- apply truthy_spec in Ts. split; [congruence | left; reflexivity].
        -- split; [discriminate|]. right. f_equal.
           unfold JS.truthy in Ts. apply negb_false_iff, String.eqb_eq in Ts. exact Ts.
  - split.
    + split; [|reflexivity]. intros _. right. left. f_equal.
      unfold JS.truthy in T. apply negb_false_iff, String.eqb_eq in T. exact T.
    + intros p H. discriminate H.
Qed.

Lemma parseTransactionFromText_result_witness :
  exists p, Gemini.parseTransactionFromText Sample.refundReply = Some p
            /\ parsed_type p = EXPENSE.
Proof.
  eexists. split; [reflexivity|].
  destruct (parseTransactionFromText_result Sample.refundReply) as [_ H].
  destruct (H _ eq_refl) as (_ & _ & _ & _ & [_ E] & _).
  apply E. discriminate.
Defined.

(** ** Selection *)

(** X21.  Selecting and deselecting rows, clicking the background, pressing
    Edit, Delete or New Entry, cancelling a deletion and closing the modal
    change neither the list on the screen nor the storage: only a save and a
    confirmed deletion do. *)
Theorem selection_is_harmless (t : Transaction) (onRowOrButton : bool) (sc : App.Screen) :
  let same sc' :=
    App.transactions (App.state sc') = App.transactions (App.state sc)
    /\ App.storage (App.state sc') = App.storage (App.state sc)
    /\ App.user sc' = App.user sc in
  same (App.withState (App.rowClick t) sc)
  /\ same (App.withState (App.handleBackgroundClick onRowOrButton) sc)
  /\ same (App.withState App.deleteClick sc)
  /\ same (App.withState App.cancelDelete sc)
  /\ same (App.editClick sc)
  /\ same (App.newEntryClick sc)
  /\ same (App.closeModal sc).
Proof.
  cbn zeta. unfold App.withState, App.handleBackgroundClick, App.deleteClick,
    App.editClick.
  destruct onRowOrButton, (App.selected (App.state sc)) as [i|];
    try destruct (find _ _); repeat split.
Qed.

Lemma emailRegex_accepts_witness : AuthScreen.emailRegex_test "mum@example.org" = true.
Proof.
  apply emailRegex_accepts. exists "mum", "example", "org". repeat split; discriminate.
Defined.
